(** * OpenTelemetry contrib adapters: otelhttp metrics transport and
      go-restful span filter

    A shallow embedding of
      - instrumentation/net/http/otelhttp/metrics.go
      - instrumentation/github.com/emicklei/go-restful/restful.go
    and the properties their specification states about them.

    Both files are thin adapters around collaborators they do not own (the
    wrapped transport, the response body, the metrics and tracing SDK, the
    routing framework).  The collaborators are described by a type class of
    handles and of state transformers on an abstract outside world [Env];
    the adapter code itself is translated statement by statement into a
    state-and-panic monad, and every call it makes on a collaborator is
    appended to a log, so that "how many samples", "in which order" and
    "with which arguments" are questions about that log. *)

From Stdlib Require Import ZArith QArith String List Bool Lia.
From stdpp Require Import base decidable option list.

Close Scope Q_scope.
Local Open Scope Z_scope.

(** ** Go control flow: results, panics and [defer] *)

Module Go.

(** What a Go call produces: it returns, or it panics. *)
Inductive outcome (A : Type) : Type :=
| Returned (a : A)
| Panicked (reason : string).
Arguments Returned {A} a.
Arguments Panicked {A} reason.

Definition M (S A : Type) : Type := S -> outcome A * S.

Definition ret {S A} (a : A) : M S A := fun s => (Returned a, s).

Definition bind {S A B} (m : M S A) (k : A -> M S B) : M S B :=
  fun s =>
    match m s with
    | (Returned a, s') => k a s'
    | (Panicked r, s') => (Panicked r, s')
    end.

Definition panic {S A} (reason : string) : M S A :=
  fun s => (Panicked reason, s).

(** [defer d; body]: [d] runs when the function leaves, on a normal return
    and on a panic alike; a panic of [body] goes on unwinding after [d],
    unless [d] panics itself. *)
Definition defer {S A} (d : M S unit) (body : M S A) : M S A :=
  fun s =>
    let '(o, s1) := body s in
    match d s1 with
    | (Returned _, s2) => (o, s2)
    | (Panicked r, s2) => (Panicked r, s2)
    end.

Definition nil_dereference : string :=
  "invalid memory address or nil pointer dereference"%string.


End Go.

Import Go.

Declare Scope go_scope.
Delimit Scope go_scope with go.
Notation "'let*' x ':=' c 'in' k" := (bind c (fun x => k))
  (at level 10, x name, c at level 100, k at level 200) : go_scope.
Notation "'let*' ' p ':=' c 'in' k" := (bind c (fun x => match x with p => k end))
  (at level 10, p pattern, c at level 100, k at level 200) : go_scope.
Notation "c ';;;' k" := (bind c (fun _ => k))
  (at level 100, k at level 200, right associativity) : go_scope.
Local Open Scope go_scope.

(** ** instrumentation/net/http/otelhttp/metrics.go *)

Module Otelhttp.

(** [*http.Response], as far as the transport looks at it.  [B] is what the
    [Body] field holds; [D] is everything else. *)
Record Response (D B : Type) : Type := mkResponse {
  StatusCode : Z;
  Body : option B;
  resp_rest : D;
}.
Arguments mkResponse {D B}.
Arguments StatusCode {D B}.
Arguments Body {D B}.
Arguments resp_rest {D B}.

(** [resp.Body = b] *)
Definition set_Body {D B B'} (r : Response D B) (b : option B') : Response D B' :=
  mkResponse (StatusCode r) b (resp_rest r).

(** The collaborators of the transport.  Objects are handles; their methods
    are transformers of the outside world, and may panic. *)
Class Collaborators : Type := {
  Env : Type;
  (** context.Context *)
  Ctx : Type;
  (** label.KeyValue *)
  KeyValue : Type;
  (** the values of Go's [error] interface other than nil; [err == io.EOF]
      is decidable *)
  error : Type;
  error_eq_dec :: EqDecision error;
  EOF : error;
  (** *http.Request *)
  Request : Type;
  Request_Context : Request -> Ctx;
  ResponseData : Type;
  (** the objects the base transport hands out as [resp.Body] *)
  ExtBody : Type;
  ExtBody_Read : ExtBody -> list Byte.byte -> Env ->
                 outcome (list Byte.byte * (Z * option error)) * Env;
  ExtBody_Close : ExtBody -> Env -> outcome (option error) * Env;
  (** whether the dynamic type also has [Write([]byte) (int, error)] *)
  ExtBody_isWriter : ExtBody -> bool;
  ExtBody_Write : ExtBody -> list Byte.byte -> Env ->
                  outcome (Z * option error) * Env;
  (** *Transport, the wrapped transport of the same package *)
  Transport : Type;
  Transport_RoundTrip : Transport -> Request -> Env ->
    outcome (option (Response ResponseData ExtBody) * option error) * Env;
  (** metric.Meter and metric.Float64ValueRecorder *)
  Meter : Type;
  Float64ValueRecorder : Type;
  (** time.Now(), in nanoseconds *)
  now : Env -> Z;
  (** go.opentelemetry.io/otel/semconv *)
  HTTPClientAttributesFromHTTPRequest : Request -> list KeyValue;
  HTTPAttributesFromHTTPStatusCode : Z -> list KeyValue;
}.

Section Transport.

Context `{Collaborators}.

(** http.StatusInternalServerError *)
Definition StatusInternalServerError : Z := 500.

(** time.Duration is an int64 of nanoseconds; [Time.Sub] saturates. *)
Definition maxDuration : Z := 2 ^ 63 - 1.
Definition minDuration : Z := - 2 ^ 63.
Definition Millisecond : Z := 1000000.

Definition Time_Sub (t u : Z) : Z :=
  let d := t - u in
  if d >? maxDuration then maxDuration
  else if d <? minDuration then minDuration
  else d.

(** [time.Since(start)] at clock reading [t]. *)
Definition Since (t start : Z) : Z := Time_Sub t start.

(** [float64(d) / float64(time.Millisecond)], kept as an exact quotient. *)
Definition latencyMs (d : Z) : Q := Qmake d (Z.to_pos Millisecond).

Record instrumentedTransport : Type := mkTransport {
  meter : Meter;
  base : Transport;
  trans_clientDurationRecorder : Float64ValueRecorder;
}.

(** [endOnce] is the [done] flag of the [sync.Once]. *)
Record tracker : Type := mkTracker {
  ctx : Ctx;
  start : Z;
  body : option ExtBody;
  endOnce : bool;
  labels : list KeyValue;
  clientDurationRecorder : Float64ValueRecorder;
}.

(** The calls the transport and its wrappers make on their collaborators,
    in the order they are made. *)
Inductive Event : Type :=
| CallRoundTrip (b : Transport) (req : Request)
| CallRead (bd : ExtBody) (buf : list Byte.byte)
| CallClose (bd : ExtBody)
| CallWrite (bd : ExtBody) (p : list Byte.byte)
| CallRecord (r : Float64ValueRecorder) (c : Ctx) (v : Q) (ls : list KeyValue).

(** The state the code runs in: the outside world, the trackers allocated
    so far ([&tracker{...}] is the index of a cell), and the log. *)
Record World : Type := mkWorld {
  env : Env;
  trackers : list tracker;
  log : list Event;
}.

Definition T (A : Type) : Type := M World A.

Definition get_env : T Env := fun w => (Returned (env w), w).

Definition emit (ev : Event) : T unit :=
  fun w => (Returned tt, mkWorld (env w) (trackers w) (log w ++ [ev])).

(** A call on a collaborator: logged, then run on the outside world. *)
Definition call {A} (ev : Event) (f : Env -> outcome A * Env) : T A :=
  fun w =>
    let '(o, e') := f (env w) in
    (o, mkWorld e' (trackers w) (log w ++ [ev])).

Definition alloc (tr : tracker) : T nat :=
  fun w => (Returned (length (trackers w)),
            mkWorld (env w) (trackers w ++ [tr]) (log w)).

Definition load (t : nat) : T tracker :=
  fun w =>
    match trackers w !! t with
    | Some tr => (Returned tr, w)
    | None => (Panicked nil_dereference, w)
    end.

Definition store (t : nat) (tr : tracker) : T unit :=
  fun w => (Returned tt, mkWorld (env w) (<[t := tr]> (trackers w)) (log w)).

Definition set_labels (ls : list KeyValue) (tr : tracker) : tracker :=
  mkTracker (ctx tr) (start tr) (body tr) (endOnce tr) ls (clientDurationRecorder tr).

Definition set_body (bd : option ExtBody) (tr : tracker) : tracker :=
  mkTracker (ctx tr) (start tr) bd (endOnce tr) (labels tr) (clientDurationRecorder tr).

Definition set_done (tr : tracker) : tracker :=
  mkTracker (ctx tr) (start tr) (body tr) true (labels tr) (clientDurationRecorder tr).

(** [func (tracker *tracker) end()]: the [sync.Once] runs the function
    when its flag is clear, and sets the flag when the function is over. *)
Definition tracker_end (t : nat) : T unit :=
  let* tr := load t in
  if endOnce tr then ret tt
  else
    let* e := get_env in
    let v := latencyMs (Since (now e) (start tr)) in
    emit (CallRecord (clientDurationRecorder tr) (ctx tr) v (labels tr)) ;;;
    let* tr' := load t in
    store t (set_done tr').

(** [func (tracker *tracker) Read(b []byte) (int, error)] *)
Definition tracker_Read (t : nat) (b : list Byte.byte)
  : T (list Byte.byte * (Z * option error)) :=
  let* tr := load t in
  match body tr with
  | None => panic nil_dereference
  | Some bd =>
      let* '(b', (n, err)) := call (CallRead bd b) (ExtBody_Read bd b) in
      match err with
      | None => ret (b', (n, None))
      | Some e =>
          if decide (e = EOF)
          then tracker_end t ;;; ret (b', (n, err))
          else ret (b', (n, err))
      end
  end.

(** [func (tracker *tracker) Close() error] *)
Definition tracker_Close (t : nat) : T (option error) :=
  tracker_end t ;;;
  let* tr := load t in
  match body tr with
  | None => panic nil_dereference
  | Some bd => call (CallClose bd) (ExtBody_Close bd)
  end.

(** The values an [io.ReadCloser] holds in this package: a body of the
    base transport, a [*tracker], or the anonymous
    [struct { io.ReadCloser; io.Writer }] of [wrappedBodyIO]. *)
Inductive ReadCloser : Type :=
| Original (bd : ExtBody)
| Wrapper (t : nat)
| ReadCloserWriter (rc : ReadCloser) (wr : ExtBody).

(** [v.(io.Writer)]: the method set of the dynamic type has [Write].  A
    [*tracker] has [end], [Read] and [Close]; the struct promotes the
    [Write] of its second field. *)
Definition as_Writer (v : ReadCloser) : option ExtBody :=
  match v with
  | Original bd => if ExtBody_isWriter bd then Some bd else None
  | Wrapper _ => None
  | ReadCloserWriter _ wr => Some wr
  end.

(** [func wrappedBodyIO(wrapper io.ReadCloser, body io.ReadCloser) io.ReadCloser]:
    "returns a wrapped version of the original Body and only implements the
    same combination of additional interfaces as the original". *)
Definition wrappedBodyIO (wrapper body : ReadCloser) : ReadCloser :=
  match as_Writer body with
  | Some wr => ReadCloserWriter wrapper wr
  | None => wrapper
  end.

(** Method calls on a [ReadCloser], by dynamic dispatch. *)
Fixpoint Read (v : ReadCloser) (b : list Byte.byte)
  : T (list Byte.byte * (Z * option error)) :=
  match v with
  | Original bd => call (CallRead bd b) (ExtBody_Read bd b)
  | Wrapper t => tracker_Read t b
  | ReadCloserWriter rc _ => Read rc b
  end.

Fixpoint Close (v : ReadCloser) : T (option error) :=
  match v with
  | Original bd => call (CallClose bd) (ExtBody_Close bd)
  | Wrapper t => tracker_Close t
  | ReadCloserWriter rc _ => Close rc
  end.

(** [v.(io.Writer).Write(p)], when the assertion holds. *)
Definition Write (v : ReadCloser) : option (list Byte.byte -> T (Z * option error)) :=
  match as_Writer v with
  | Some wr => Some (fun p => call (CallWrite wr p) (ExtBody_Write wr p))
  | None => None
  end.

Definition lift_Response (r : Response ResponseData ExtBody)
  : Response ResponseData ReadCloser :=
  set_Body r (option_map Original (Body r)).

(** [func (trans *instrumentedTransport) RoundTrip(req *http.Request)],
    returning the response pointer and the error *)
Definition RoundTrip (trans : instrumentedTransport) (req : Request)
  : T (option (Response ResponseData ReadCloser) * option error) :=
  let ls := HTTPClientAttributesFromHTTPRequest req in
  let c := Request_Context req in
  let* e := get_env in
  let* t := alloc (mkTracker c (now e) None false [] (trans_clientDurationRecorder trans)) in
  let* '(resp, err) := call (CallRoundTrip (base trans) req)
                            (Transport_RoundTrip (base trans) req) in
  match err with
  | Some _ =>
      let* tr := load t in
      store t (set_labels (ls ++ HTTPAttributesFromHTTPStatusCode StatusInternalServerError) tr) ;;;
      tracker_end t ;;;
      ret (option_map lift_Response resp, err)
  | None =>
      match resp with
      | None => panic nil_dereference
      | Some r =>
          let* tr := load t in
          store t (set_labels (ls ++ HTTPAttributesFromHTTPStatusCode (StatusCode r)) tr) ;;;
          match Body r with
          | None =>
              tracker_end t ;;;
              ret (Some (lift_Response r), None)
          | Some bd =>
              let* tr := load t in
              store t (set_body (Some bd) tr) ;;;
              ret (Some (set_Body r (Some (wrappedBodyIO (Wrapper t) (Original bd)))), None)
          end
      end
  end.

(** *** What a caller does with the returned body *)

Inductive Op : Type :=
| OpRead (b : list Byte.byte)
| OpClose
| OpWrite (p : list Byte.byte)
(** anything that happens elsewhere in between: time passes, data arrives *)
| OpOutside (f : Env -> Env).

Inductive Result : Type :=
| ResRead (o : outcome (list Byte.byte * (Z * option error)))
| ResClose (o : outcome (option error))
(** [None]: the body has no [Write] to call *)
| ResWrite (o : option (outcome (Z * option error)))
| ResOutside.

Definition run_op (v : ReadCloser) (op : Op) (w : World) : Result * World :=
  match op with
  | OpRead b => let '(o, w') := Read v b w in (ResRead o, w')
  | OpClose => let '(o, w') := Close v w in (ResClose o, w')
  | OpWrite p =>
      match Write v with
      | Some f => let '(o, w') := f p w in (ResWrite (Some o), w')
      | None => (ResWrite None, w)
      end
  | OpOutside f => (ResOutside, mkWorld (f (env w)) (trackers w) (log w))
  end.

(** The caller goes on after a panic of one operation (it recovered). *)
Fixpoint run_ops (v : ReadCloser) (ops : list Op) (w : World) : list Result * World :=
  match ops with
  | [] => ([], w)
  | op :: ops' =>
      let '(r, w1) := run_op v op w in
      let '(rs, w2) := run_ops v ops' w1 in
      (r :: rs, w2)
  end.

(** One outbound call and what follows on its body. *)
Definition outbound_call (trans : instrumentedTransport) (req : Request)
           (ops : list Op) (w : World) : list Result * World :=
  match RoundTrip trans req w with
  | (Returned (Some resp, _), w1) =>
      match Body resp with
      | Some v => run_ops v ops w1
      | None => ([], w1)
      end
  | (_, w1) => ([], w1)
  end.

(** [end()] called [n] times in a row. *)
Fixpoint end_times (n : nat) (t : nat) : T unit :=
  match n with
  | O => ret tt
  | S n' => tracker_end t ;;; end_times n' t
  end.

(** *** Reading the log *)

Definition is_Record (ev : Event) : bool :=
  match ev with CallRecord _ _ _ _ => true | _ => false end.

(** Number of samples the duration recorder received. *)
Fixpoint samples (l : list Event) : nat :=
  match l with
  | [] => O
  | ev :: l' => ((if is_Record ev then 1 else 0) + samples l')%nat
  end.

(** The call [end()] makes on the recorder for tracker [tr] when the outside
    world is [e]: [Record(tracker.ctx, latencyMs, tracker.labels...)]. *)
Definition sample_of (tr : tracker) (e : Env) : Event :=
  CallRecord (clientDurationRecorder tr) (ctx tr)
    (latencyMs (Since (now e) (start tr))) (labels tr).

(** The tracker [RoundTrip] leaves behind when it finalized itself. *)
Definition finalized_tracker (trans : instrumentedTransport) (req : Request)
           (e : Env) (code : Z) : tracker :=
  mkTracker (Request_Context req) (now e) None true
    (HTTPClientAttributesFromHTTPRequest req ++ HTTPAttributesFromHTTPStatusCode code)
    (trans_clientDurationRecorder trans).

(** [v] is the body [RoundTrip] hands out for tracker [t]. *)
Definition wraps (t : nat) (v : ReadCloser) : Prop :=
  v = Wrapper t \/ exists wr, v = ReadCloserWriter (Wrapper t) wr.

(** Tracker [t] exists, observes body [bd], and its guard reads [d]. *)
Definition tracked (t : nat) (bd : ExtBody) (d : bool) (w : World) : Prop :=
  exists tr, trackers w !! t = Some tr /\ body tr = Some bd /\ endOnce tr = d.

(** The result of a read is the end-of-stream signal. *)
Definition is_EOF (err : option error) : bool :=
  match err with
  | Some e => bool_decide (e = EOF)
  | None => false
  end.

(** An operation on the wrapped body that calls [end()]: every [Close],
    and a [Read] that came back with [io.EOF]. *)
Definition finalizes (r : Result) : bool :=
  match r with
  | ResClose _ => true
  | ResRead (Returned (_, (_, err))) => is_EOF err
  | _ => false
  end.

(** The outcome of the base transport that makes [RoundTrip] call [end()]
    itself: an error, or a response without a body. *)
Definition finalized_by_RoundTrip
           (o : outcome (option (Response ResponseData ExtBody) * option error)) : bool :=
  match o with
  | Returned (_, Some _) => true
  | Returned (Some r, None) => negb (bool_decide (is_Some (Body r)))
  | _ => false
  end.

End Transport.

End Otelhttp.

(** ** instrumentation/github.com/emicklei/go-restful/restful.go *)

Module Restful.

Definition tracerName : string :=
  "go.opentelemetry.io/contrib/instrumentation/github.com/emicklei/go-restful"%string.
Definition tracerVersion : string := "1.0"%string.

(** oteltrace.SpanKind *)
Inductive SpanKind : Type :=
| SpanKindUnspecified | SpanKindInternal | SpanKindServer
| SpanKindClient | SpanKindProducer | SpanKindConsumer.

(** oteltrace.StartOption, the two the filter builds *)
Inductive StartOption (KV : Type) : Type :=
| WithAttributes (attrs : list KV)
| WithSpanKind (k : SpanKind).
Arguments WithAttributes {KV} attrs.
Arguments WithSpanKind {KV} k.

(** The collaborators of the filter: the routing framework, the tracing
    SDK, the propagation package and the process-wide registry.  The
    objects the framework shares with the rest of the chain
    ([*restful.Request], [*restful.Response]) and the registry live in
    [Env], where the rest of the chain can change them. *)
Class Collaborators : Type := {
  Env : Type;
  Ctx : Type;
  KeyValue : Type;
  Header : Type;
  (** *http.Request *)
  http_Request : Type;
  http_Context : http_Request -> Ctx;
  http_Header : http_Request -> Header;
  http_WithContext : http_Request -> Ctx -> http_Request;
  (** *restful.Request: its [Request] field and its selected route *)
  Request : Type;
  Request_Request : Request -> Env -> http_Request;
  Request_set_Request : Request -> http_Request -> Env -> Env;
  SelectedRoutePath : Request -> Env -> string;
  (** *restful.Response *)
  Response : Type;
  Response_StatusCode : Response -> Env -> Z;
  (** *restful.FilterChain *)
  FilterChain : Type;
  ProcessFilter : FilterChain -> Request -> Response -> Env -> outcome unit * Env;
  (** oteltrace *)
  trace_Tracer : Type;
  trace_Span : Type;
  trace_Provider : Type;
  codes_Code : Type;
  Tracer_Start : trace_Tracer -> Ctx -> string -> list (StartOption KeyValue) -> Env ->
                 (Ctx * trace_Span) * Env;
  Provider_Tracer : trace_Provider -> string -> string -> trace_Tracer;
  (** otelpropagation *)
  propagation_Propagators : Type;
  ExtractHTTP : Ctx -> propagation_Propagators -> Header -> Ctx;
  (** otelglobal *)
  global_TraceProvider : Env -> trace_Provider;
  global_Propagators : Env -> propagation_Propagators;
  (** go.opentelemetry.io/otel/api/standard *)
  NetAttributesFromHTTPRequest : string -> http_Request -> list KeyValue;
  EndUserAttributesFromHTTPRequest : http_Request -> list KeyValue;
  HTTPServerAttributesFromHTTPRequest : string -> string -> http_Request -> list KeyValue;
  HTTPAttributesFromHTTPStatusCode : Z -> list KeyValue;
  SpanStatusFromHTTPStatusCode : Z -> codes_Code * string;
}.

Section Filter.

Context `{Collaborators}.

Record Config : Type := mkConfig {
  Tracer : option trace_Tracer;
  Propagators : option propagation_Propagators;
}.

(** [type Option], a function on a [*Config], as the update it performs *)
Definition Option : Type := Config -> Config.

Inductive Event : Type :=
| ReadGlobalTraceProvider
| ReadGlobalPropagators
| CallStart (tr : trace_Tracer) (c : Ctx) (spanName : string)
            (opts : list (StartOption KeyValue))
| CallProcessFilter (chain : FilterChain) (req : Request) (resp : Response)
| CallSetAttributes (s : trace_Span) (attrs : list KeyValue)
| CallSetStatus (s : trace_Span) (code : codes_Code) (msg : string)
| CallEnd (s : trace_Span).

Record World : Type := mkWorld {
  env : Env;
  log : list Event;
}.

Definition T (A : Type) : Type := M World A.

Definition get_env : T Env := fun w => (Returned (env w), w).

Definition modify_env (f : Env -> Env) : T unit :=
  fun w => (Returned tt, mkWorld (f (env w)) (log w)).

Definition emit (ev : Event) : T unit :=
  fun w => (Returned tt, mkWorld (env w) (log w ++ [ev])).

(** A call on a collaborator that may panic. *)
Definition call {A} (ev : Event) (f : Env -> outcome A * Env) : T A :=
  fun w => let '(o, e') := f (env w) in (o, mkWorld e' (log w ++ [ev])).

(** A call into the SDK. *)
Definition sdk_call {A} (ev : Event) (f : Env -> A * Env) : T A :=
  fun w => let '(a, e') := f (env w) in (Returned a, mkWorld e' (log w ++ [ev])).

(** Using an interface value: a method call on nil panics. *)
Definition deref {A} (v : option A) : T A :=
  match v with
  | Some a => ret a
  | None => panic nil_dereference
  end.

Definition FilterFunction : Type := Request -> Response -> FilterChain -> T unit.

(** [opts := []oteltrace.StartOption{...}] *)
Definition start_options (service route : string) (r : http_Request)
  : list (StartOption KeyValue) :=
  [ WithAttributes (NetAttributesFromHTTPRequest "tcp" r);
    WithAttributes (EndUserAttributesFromHTTPRequest r);
    WithAttributes (HTTPServerAttributesFromHTTPRequest service route r);
    WithSpanKind SpanKindServer ].

(** The closure [OTelFilter] returns, over the [cfg] and [service] it
    captured. *)
Definition filter (cfg : Config) (service : string) : FilterFunction :=
  fun req resp chain =>
    let* e0 := get_env in
    let r := Request_Request req e0 in
    let* propagators := deref (Propagators cfg) in
    let c := ExtractHTTP (http_Context r) propagators (http_Header r) in
    let route := SelectedRoutePath req e0 in
    let spanName := route in
    let opts := start_options service route r in
    let* tracer := deref (Tracer cfg) in
    let* '(c', span) := sdk_call (CallStart tracer c spanName opts)
                                 (Tracer_Start tracer c spanName opts) in
    defer (emit (CallEnd span))
      (let* e1 := get_env in
       modify_env (Request_set_Request req (http_WithContext (Request_Request req e1) c')) ;;;
       call (CallProcessFilter chain req resp) (ProcessFilter chain req resp) ;;;
       let* e2 := get_env in
       let attrs := HTTPAttributesFromHTTPStatusCode (Response_StatusCode resp e2) in
       let '(spanStatus, spanMessage) :=
         SpanStatusFromHTTPStatusCode (Response_StatusCode resp e2) in
       emit (CallSetAttributes span attrs) ;;;
       emit (CallSetStatus span spanStatus spanMessage)).

(** [for _, opt := range opts { opt(&cfg) }] *)
Definition apply_opts (opts : list Option) (cfg : Config) : Config :=
  fold_left (fun c opt => opt c) opts cfg.

(** The two [if cfg.X == nil] statements: a field left nil is read from
    the process-wide registry. *)
Definition resolve (cfg : Config) : T Config :=
  let* cfg1 :=
    match Tracer cfg with
    | None =>
        let* e := get_env in
        emit ReadGlobalTraceProvider ;;;
        ret (mkConfig (Some (Provider_Tracer (global_TraceProvider e) tracerName tracerVersion))
                      (Propagators cfg))
    | Some _ => ret cfg
    end in
  match Propagators cfg1 with
  | None =>
      let* e := get_env in
      emit ReadGlobalPropagators ;;;
      ret (mkConfig (Tracer cfg1) (Some (global_Propagators e)))
  | Some _ => ret cfg1
  end.

(** [func OTelFilter(service string, opts ...Option) restful.FilterFunction] *)
Definition OTelFilter (service : string) (opts : list Option) : T FilterFunction :=
  let cfg := apply_opts opts (mkConfig None None) in
  let* cfg' := resolve cfg in
  ret (filter cfg' service).

(** The collaborators the closure ends up with when [OTelFilter] is
    called with [opts] while the outside world is [e]. *)
Definition resolved_Tracer (opts : list Option) (e : Env) : trace_Tracer :=
  match Tracer (apply_opts opts (mkConfig None None)) with
  | Some tr => tr
  | None => Provider_Tracer (global_TraceProvider e) tracerName tracerVersion
  end.

Definition resolved_Propagators (opts : list Option) (e : Env) : propagation_Propagators :=
  match Propagators (apply_opts opts (mkConfig None None)) with
  | Some p => p
  | None => global_Propagators e
  end.

(** *** Reading the log *)

Definition is_Start (ev : Event) : bool :=
  match ev with CallStart _ _ _ _ => true | _ => false end.
Definition is_End (ev : Event) : bool :=
  match ev with CallEnd _ => true | _ => false end.
Definition is_global_read (ev : Event) : bool :=
  match ev with ReadGlobalTraceProvider | ReadGlobalPropagators => true | _ => false end.

(** What the filter hands to [Tracer.Start] for request [req] when the
    outside world is [e]: the extracted context. *)
Definition extracted (props : propagation_Propagators) (req : Request) (e : Env) : Ctx :=
  ExtractHTTP (http_Context (Request_Request req e)) props
              (http_Header (Request_Request req e)).

(** The outside world as the rest of the chain finds it: after
    [Tracer.Start], with the span-bearing context stored in the request. *)
Definition chain_env (tracer : trace_Tracer) (props : propagation_Propagators)
           (service : string) (req : Request) (e : Env) : Env :=
  let route := SelectedRoutePath req e in
  let st := Tracer_Start tracer (extracted props req e) route
              (start_options service route (Request_Request req e)) e in
  Request_set_Request req
    (http_WithContext (Request_Request req (snd st)) (fst (fst st))) (snd st).

(** The span [Tracer.Start] returned. *)
Definition started_span (tracer : trace_Tracer) (props : propagation_Propagators)
           (service : string) (req : Request) (e : Env) : trace_Span :=
  let route := SelectedRoutePath req e in
  snd (fst (Tracer_Start tracer (extracted props req e) route
              (start_options service route (Request_Request req e)) e)).

Fixpoint count (p : Event -> bool) (l : list Event) : nat :=
  match l with
  | [] => O
  | ev :: l' => ((if p ev then 1 else 0) + count p l')%nat
  end.

End Filter.

End Restful.

(** ** Concrete collaborators

    A small outside world for each adapter, on which the definitions above
    run: a transport with a handful of canned answers, and a router with a
    handful of handlers. *)

Module OtelhttpDemo.
Import Otelhttp.

Inductive demo_error : Type := ErrEOF | ErrReset | ErrDial.

#[export] Instance demo_error_eq_dec : EqDecision demo_error.
Proof. solve_decision. Defined.

(** [Chunked]: three chunks, then end of stream; a plain read-closer.
    [Pipe]: the same stream, on an object that can also be written to.
    [Broken]: every read fails with a connection reset. *)
Inductive demo_body : Type := Chunked | Pipe | Broken.

Inductive demo_request : Type :=
| GetItems | GetUnreachable | DeleteItem | GetPipe | GetBroken | GetNothing.

Record demo_env : Type := mkEnv {
  clock : Z;
  reads : nat;
  closes : nat;
  written : list Byte.byte;
}.

(** every call on the outside takes two milliseconds *)
Definition tick (e : demo_env) : demo_env :=
  mkEnv (clock e + 2000000) (reads e) (closes e) (written e).

Definition demo_Read (bd : demo_body) (b : list Byte.byte) (e : demo_env)
  : outcome (list Byte.byte * (Z * option demo_error)) * demo_env :=
  let e' := tick e in
  match bd with
  | Broken => (Returned (b, (0, Some ErrReset)), e')
  | _ =>
      if (reads e <? 3)%nat
      then (Returned (b, (Z.of_nat (length b), None)),
            mkEnv (clock e') (S (reads e')) (closes e') (written e'))
      else (Returned (b, (0, Some ErrEOF)), e')
  end.

Definition demo_Close (bd : demo_body) (e : demo_env)
  : outcome (option demo_error) * demo_env :=
  (Returned None, mkEnv (clock e) (reads e) (S (closes e)) (written e)).

Definition demo_Write (bd : demo_body) (p : list Byte.byte) (e : demo_env)
  : outcome (Z * option demo_error) * demo_env :=
  (Returned (Z.of_nat (length p), None),
   mkEnv (clock e) (reads e) (closes e) (written e ++ p)).

Definition demo_isWriter (bd : demo_body) : bool :=
  match bd with Pipe => true | _ => false end.

Definition demo_RoundTrip (_ : unit) (req : demo_request) (e : demo_env)
  : outcome (option (Response unit demo_body) * option demo_error) * demo_env :=
  let e' := tick e in
  match req with
  | GetItems => (Returned (Some (mkResponse 200 (Some Chunked) tt), None), e')
  | GetUnreachable => (Returned (None, Some ErrDial), e')
  | DeleteItem => (Returned (Some (mkResponse 204 None tt), None), e')
  | GetPipe => (Returned (Some (mkResponse 200 (Some Pipe) tt), None), e')
  | GetBroken => (Returned (Some (mkResponse 200 (Some Broken) tt), None), e')
  | GetNothing => (Returned (None, None), e')
  end.

Definition demo_method (req : demo_request) : string :=
  match req with DeleteItem => "DELETE"%string | _ => "GET"%string end.

#[export] Instance demo : Collaborators := {|
  Env := demo_env;
  Ctx := unit;
  KeyValue := string * string + string * Z;
  error := demo_error;
  EOF := ErrEOF;
  Request := demo_request;
  Request_Context := fun _ => tt;
  ResponseData := unit;
  ExtBody := demo_body;
  ExtBody_Read := demo_Read;
  ExtBody_Close := demo_Close;
  ExtBody_isWriter := demo_isWriter;
  ExtBody_Write := demo_Write;
  Transport := unit;
  Transport_RoundTrip := demo_RoundTrip;
  Meter := unit;
  Float64ValueRecorder := unit;
  now := clock;
  HTTPClientAttributesFromHTTPRequest :=
    fun req => [inl ("http.method"%string, demo_method req)];
  HTTPAttributesFromHTTPStatusCode :=
    fun code => [inr ("http.status_code"%string, code)];
|}.

Definition demo_transport : instrumentedTransport := mkTransport tt tt tt.

Definition demo_world : World := mkWorld (mkEnv 0 0 0 []) [] [].

Definition buf4 : list Byte.byte := [Byte.x00; Byte.x00; Byte.x00; Byte.x00].

(** The world right after [RoundTrip] for [GetItems] and for [GetPipe]. *)
Definition after_GetItems : World := snd (RoundTrip demo_transport GetItems demo_world).
Definition after_GetPipe : World := snd (RoundTrip demo_transport GetPipe demo_world).

End OtelhttpDemo.

Module RestfulDemo.
Import Restful.

Inductive demo_kv : Type :=
| KVString (k v : string)
| KVInt (k : string) (v : Z).

Record demo_env : Type := mkEnv {
  status : Z;
  request_ctx : nat;
  next_span : nat;
  registry_provider : nat;
  registry_propagators : nat;
}.

(** [Handler200] answers 200; [HandlerPanics] writes 500 and panics;
    [HandlerRewrites] writes 500, then 404; [HandlerSwapsRegistry] answers
    200 and installs another provider and other propagators. *)
Inductive demo_chain : Type :=
| Handler200 | HandlerPanics | HandlerRewrites | HandlerSwapsRegistry.

Definition set_status (code : Z) (e : demo_env) : demo_env :=
  mkEnv code (request_ctx e) (next_span e) (registry_provider e) (registry_propagators e).

Definition demo_ProcessFilter (ch : demo_chain) (_ _ : unit) (e : demo_env)
  : outcome unit * demo_env :=
  match ch with
  | Handler200 => (Returned tt, set_status 200 e)
  | HandlerPanics => (Panicked "handler panicked"%string, set_status 500 e)
  | HandlerRewrites => (Returned tt, set_status 404 (set_status 500 e))
  | HandlerSwapsRegistry =>
      (Returned tt, mkEnv 200 (request_ctx e) (next_span e) 7 8)
  end.

Definition demo_Start (tr : nat) (c : nat) (name : string)
           (opts : list (StartOption demo_kv)) (e : demo_env) : (nat * nat) * demo_env :=
  ((S c, next_span e),
   mkEnv (status e) (request_ctx e) (S (next_span e))
         (registry_provider e) (registry_propagators e)).

Definition demo_SpanStatus (code : Z) : Z * string :=
  if code <? 400 then (0, "OK"%string) else (2, "HTTP status code"%string).

#[export] Instance demo : Collaborators := {|
  Env := demo_env;
  Ctx := nat;
  KeyValue := demo_kv;
  Header := list (string * string);
  http_Request := nat * list (string * string);
  http_Context := fst;
  http_Header := snd;
  http_WithContext := fun r c => (c, snd r);
  Request := unit;
  Request_Request := fun _ e => (request_ctx e, [("traceparent"%string, "00-ab-cd-01"%string)]);
  Request_set_Request := fun _ r e =>
    mkEnv (status e) (fst r) (next_span e) (registry_provider e) (registry_propagators e);
  SelectedRoutePath := fun _ _ => "/items/{id}"%string;
  Response := unit;
  Response_StatusCode := fun _ e => status e;
  FilterChain := demo_chain;
  ProcessFilter := demo_ProcessFilter;
  trace_Tracer := nat;
  trace_Span := nat;
  trace_Provider := nat;
  codes_Code := Z;
  Tracer_Start := demo_Start;
  Provider_Tracer := fun p _ _ => p;
  propagation_Propagators := nat;
  ExtractHTTP := fun c p _ => (c + p)%nat;
  global_TraceProvider := registry_provider;
  global_Propagators := registry_propagators;
  NetAttributesFromHTTPRequest := fun proto _ => [KVString "net.transport" proto];
  EndUserAttributesFromHTTPRequest := fun _ => [];
  HTTPServerAttributesFromHTTPRequest := fun service route _ =>
    [KVString "http.server_name" service; KVString "http.route" route;
     KVString "http.method" "GET"];
  HTTPAttributesFromHTTPStatusCode := fun code => [KVInt "http.status_code" code];
  SpanStatusFromHTTPStatusCode := demo_SpanStatus;
|}.

Definition demo_world : World := mkWorld (mkEnv 0 0 0 1 2) [].

(** The filter built with no option while the registry holds provider 1
    and propagators 2. *)
Definition demo_filter : FilterFunction :=
  filter (mkConfig (Some 1%nat) (Some 2%nat)) "items".

Definition after_construction : World :=
  mkWorld (mkEnv 0 0 0 1 2) [ReadGlobalTraceProvider; ReadGlobalPropagators].

End RestfulDemo.

(** ** The rest of metrics.go: configuration of the transport *)

Module OtelhttpSetup.
Import Otelhttp.

(** metric.WithDescription and metric.WithUnit *)
Inductive InstrumentOption : Type :=
| WithDescription (d : string)
| WithUnit (u : string).

(** unit.Milliseconds *)
Definition Milliseconds : string := "ms"%string.

(** What [applyConfig] and [createMeasures] use and metrics.go does not
    declare: the [config] struct and its [Meter] field, the name
    [clientRequestDuration], the [applyConfig] of [*Transport] and [handleErr] of
    the same package, and the meter's constructor of recorders. *)
Class SetupCollaborators `{Collaborators} : Type := {
  config : Type;
  config_Meter : config -> Meter;
  clientRequestDuration : string;
  Transport_applyConfig : Transport -> config -> Env -> outcome unit * Env;
  Meter_NewFloat64ValueRecorder :
    Meter -> string -> list InstrumentOption -> Env ->
    outcome (Float64ValueRecorder * option error) * Env;
  handleErr : option error -> Env -> outcome unit * Env;
}.

Section Setup.

Context `{SetupCollaborators}.

Inductive SetupEvent : Type :=
| CallApplyConfig (b : Transport) (c : config)
| CallNewFloat64ValueRecorder (m : Meter) (name : string) (opts : list InstrumentOption)
| CallHandleErr (err : option error).

(** The transport is reached through a pointer: the struct it points to is
    part of the state, and keeps what was assigned to it when a later call
    panics. *)
Record SetupWorld : Type := mkSetupWorld {
  s_env : Env;
  s_trans : instrumentedTransport;
  s_log : list SetupEvent;
}.

Definition S (A : Type) : Type := M SetupWorld A.

Definition s_call {A} (ev : SetupEvent) (f : Env -> outcome A * Env) : S A :=
  fun sw =>
    let '(o, e') := f (s_env sw) in
    (o, mkSetupWorld e' (s_trans sw) (s_log sw ++ [ev])).

Definition get_trans : S instrumentedTransport :=
  fun sw => (Returned (s_trans sw), sw).

Definition put_trans (tr : instrumentedTransport) : S unit :=
  fun sw => (Returned tt, mkSetupWorld (s_env sw) tr (s_log sw)).

Definition measure_options : list InstrumentOption :=
  [ WithDescription "measures the duration of the outbound HTTP request";
    WithUnit Milliseconds ].

(** [func (trans *instrumentedTransport) createMeasures()] *)
Definition createMeasures : S unit :=
  let* trans := get_trans in
  let* '(rec, err) :=
    s_call (CallNewFloat64ValueRecorder (meter trans) clientRequestDuration measure_options)
           (Meter_NewFloat64ValueRecorder (meter trans) clientRequestDuration
              measure_options) in
  put_trans (mkTransport (meter trans) (base trans) rec) ;;;
  s_call (CallHandleErr err) (handleErr err).

(** [func (trans *instrumentedTransport) applyConfig(c *config)] *)
Definition applyConfig (c : config) : S unit :=
  let* trans := get_trans in
  s_call (CallApplyConfig (base trans) c) (Transport_applyConfig (base trans) c) ;;;
  let* trans1 := get_trans in
  put_trans (mkTransport (config_Meter c) (base trans1) (trans_clientDurationRecorder trans1)) ;;;
  createMeasures.

End Setup.

End OtelhttpSetup.

(** ** Runs of several operations, calls and requests *)

Module OtelhttpRuns.
Import Otelhttp.

Section Runs.

Context `{Collaborators}.

(** The samples in a log, and the log without them. *)
Definition records (l : list Event) : list Event := List.filter is_Record l.

Definition body_calls (l : list Event) : list Event :=
  List.filter (fun ev => negb (is_Record ev)) l.

(** The status code whose attributes [RoundTrip] puts in [tracker.labels],
    by the outcome of the base transport. *)
Definition label_status
           (o : outcome (option (Response ResponseData ExtBody) * option error)) : Z :=
  match o with
  | Returned (_, Some _) => StatusInternalServerError
  | Returned (Some r, None) => StatusCode r
  | _ => 0
  end.

(** Several outbound calls one after the other, each followed by what its
    caller does with the body. *)
Fixpoint run_calls (trans : instrumentedTransport)
         (calls : list (Request * list Op)) (w : World) : World :=
  match calls with
  | [] => w
  | (req, ops) :: calls' => run_calls trans calls' (snd (outbound_call trans req ops w))
  end.

End Runs.

End OtelhttpRuns.

Module RestfulRuns.
Import Restful.

Section Runs.

Context `{Collaborators}.

(** The router hands one request after the other to the same filter, and
    goes on after a handler panicked. *)
Fixpoint run_requests (f : FilterFunction)
         (rs : list (Request * Response * FilterChain)) (w : World) : World :=
  match rs with
  | [] => w
  | (req, resp, chain) :: rs' => run_requests f rs' (snd (f req resp chain w))
  end.

End Runs.

End RestfulRuns.

(** A second concrete transport, whose meters and recorders can be told
    apart: meter [m] hands out recorder [m + 100], and meter 0 reports an
    error with it. *)
Module OtelhttpSetupDemo.
Import Otelhttp OtelhttpDemo OtelhttpSetup.

#[export] Instance metered : Collaborators := {|
  Env := demo_env;
  Ctx := unit;
  KeyValue := string * string + string * Z;
  error := demo_error;
  EOF := ErrEOF;
  Request := demo_request;
  Request_Context := fun _ => tt;
  ResponseData := unit;
  ExtBody := demo_body;
  ExtBody_Read := demo_Read;
  ExtBody_Close := demo_Close;
  ExtBody_isWriter := demo_isWriter;
  ExtBody_Write := demo_Write;
  Transport := unit;
  Transport_RoundTrip := demo_RoundTrip;
  Meter := nat;
  Float64ValueRecorder := nat;
  now := clock;
  HTTPClientAttributesFromHTTPRequest :=
    fun req => [inl ("http.method"%string, demo_method req)];
  HTTPAttributesFromHTTPStatusCode :=
    fun code => [inr ("http.status_code"%string, code)];
|}.

Definition demo_NewRecorder (m : nat) (name : string) (opts : list InstrumentOption)
           (e : demo_env) : outcome (nat * option demo_error) * demo_env :=
  (Returned ((m + 100)%nat, match m with O => Some ErrDial | _ => None end), tick e).

#[export] Instance metered_setup : @SetupCollaborators metered := {|
  config := nat;
  config_Meter := fun c => c;
  clientRequestDuration := "http.client.duration"%string;
  Transport_applyConfig := fun _ _ e => (Returned tt, tick e);
  Meter_NewFloat64ValueRecorder := demo_NewRecorder;
  handleErr := fun _ e => (Returned tt, e);
|}.

Definition unconfigured : @SetupWorld metered metered_setup :=
  @mkSetupWorld metered metered_setup
    (mkEnv 0 0 0 []) (@mkTransport metered 1%nat tt 1%nat) [].

End OtelhttpSetupDemo.

(** ** Properties of the metrics transport *)

Module OtelhttpSpec.
Import Otelhttp.

Section Proofs.

Context `{Collaborators}.

Lemma samples_app (l1 l2 : list Event) :
  samples (l1 ++ l2) = (samples l1 + samples l2)%nat.
Proof.
  induction l1 as [|ev l1 IH]; simpl; [reflexivity|].
  rewrite IH. lia.
Qed.

(** What [end()] does to a tracker that exists. *)
Lemma tracker_end_run (t : nat) (tr : tracker) (w : World) :
  trackers w !! t = Some tr ->
  tracker_end t w =
    (Returned tt,
     if endOnce tr then w
     else mkWorld (env w) (<[t := set_done tr]> (trackers w))
            (log w ++ [CallRecord (clientDurationRecorder tr) (ctx tr)
                         (latencyMs (Since (now (env w)) (start tr))) (labels tr)])).
Proof.
  intros Ht. unfold tracker_end, bind, load. rewrite Ht.
  destruct (endOnce tr); [reflexivity|].
  cbn. rewrite Ht. reflexivity.
Qed.

Lemma tracker_end_dangling (t : nat) (w : World) :
  trackers w !! t = None ->
  tracker_end t w = (Panicked nil_dereference, w).
Proof.
  intros Ht. unfold tracker_end, bind, load. rewrite Ht. reflexivity.
Qed.

Lemma lookup_set_done (t : nat) (tr : tracker) (l : list tracker) :
  l !! t = Some tr -> <[t := set_done tr]> l !! t = Some (set_done tr).
Proof.
  intros Ht. apply list_lookup_insert_eq. eapply lookup_lt_Some, Ht.
Qed.

(** [tracker.Read], run on a tracker that exists and has a body. *)
Lemma tracker_Read_run
      (t : nat) (tr : tracker) (bd : ExtBody) (b : list Byte.byte) (w : World) :
  trackers w !! t = Some tr ->
  body tr = Some bd ->
  let o := fst (ExtBody_Read bd b (env w)) in
  let e' := snd (ExtBody_Read bd b (env w)) in
  let fires := finalizes (ResRead o) && negb (endOnce tr) in
  tracker_Read t b w =
    (o, mkWorld e'
          (if fires then <[t := set_done tr]> (trackers w) else trackers w)
          (log w ++ [CallRead bd b] ++ (if fires then [sample_of tr e'] else []))).
Proof.
  intros Ht Hbd o e' fires. subst o e' fires.
  unfold tracker_Read, bind, load. rewrite Ht, Hbd. unfold call.
  destruct (ExtBody_Read bd b (env w)) as [[[b' [n [e|]]]|r] e1]; cbn.
  - destruct (decide (e = EOF)) as [He|He].
    + rewrite (tracker_end_run t tr) by exact Ht. cbn.
      rewrite bool_decide_eq_true_2 by exact He.
      destruct (endOnce tr); cbn; [reflexivity|].
      rewrite <- app_assoc. reflexivity.
    + rewrite bool_decide_eq_false_2 by exact He. reflexivity.
  - reflexivity.
  - reflexivity.
Qed.

(** C3. [tracker.Read] hands back what the wrapped body's [Read] produced
    (buffer contents, byte count and error, or its panic), after one call
    of that [Read]; the tracker is finalized exactly when that error is
    [io.EOF]: then the guard is set and the sample is recorded (unless the
    guard had fired before), and after any other result, nil or another
    error, the trackers are untouched and nothing is recorded. *)
Theorem tracker_Read_passthrough
        (t : nat) (tr : tracker) (bd : ExtBody) (b : list Byte.byte) (w : World) :
  trackers w !! t = Some tr ->
  body tr = Some bd ->
  let o := fst (ExtBody_Read bd b (env w)) in
  let e' := snd (ExtBody_Read bd b (env w)) in
  fst (tracker_Read t b w) = o /\
  env (snd (tracker_Read t b w)) = e' /\
  (finalizes (ResRead o) = true ->
     trackers (snd (tracker_Read t b w)) !! t = Some (set_done tr) /\
     log (snd (tracker_Read t b w)) =
       log w ++ [CallRead bd b] ++ (if endOnce tr then [] else [sample_of tr e'])) /\
  (finalizes (ResRead o) = false ->
     trackers (snd (tracker_Read t b w)) = trackers w /\
     log (snd (tracker_Read t b w)) = log w ++ [CallRead bd b]).
Proof.
  intros Ht Hbd o e'. subst o e'.
  rewrite (tracker_Read_run t tr bd b w Ht Hbd). cbn.
  do 2 (split; [reflexivity|]).
  split; intros Hf; rewrite Hf; cbn.
  - destruct tr as [c s bo [|] ls rec]; cbn.
    + split; [exact Ht|reflexivity].
    + split; [|reflexivity].
      apply (lookup_set_done t (mkTracker c s bo false ls rec)), Ht.
  - split; reflexivity.
Qed.

(** [tracker.Close], run on a tracker that exists and has a body. *)
Lemma tracker_Close_run (t : nat) (tr : tracker) (bd : ExtBody) (w : World) :
  trackers w !! t = Some tr ->
  body tr = Some bd ->
  tracker_Close t w =
    (fst (ExtBody_Close bd (env w)),
     mkWorld (snd (ExtBody_Close bd (env w)))
       (if endOnce tr then trackers w else <[t := set_done tr]> (trackers w))
       (log w ++ (if endOnce tr then [] else [sample_of tr (env w)]) ++ [CallClose bd])).
Proof.
  intros Ht Hbd. unfold tracker_Close, bind.
  rewrite (tracker_end_run t tr) by exact Ht.
  destruct tr as [c s bo [|] ls rec]; cbn in *; subst bo.
  - unfold load. rewrite Ht. cbn. unfold call.
    destruct (ExtBody_Close bd (env w)) as [o e1]. reflexivity.
  - unfold load. cbn.
    rewrite (lookup_set_done t (mkTracker c s (Some bd) false ls rec)) by exact Ht.
    cbn. unfold call. cbn.
    destruct (ExtBody_Close bd (env w)) as [o e1]. cbn.
    rewrite <- app_assoc. reflexivity.
Qed.

(** C4. [tracker.Close] first finalizes, then calls the wrapped body's
    [Close] and hands back that call's result: the log gains the sample
    (when the guard had not fired; it is measured on the clock as it was
    before the close) and after it the call of [Close], which is made
    once on every call of [tracker.Close], also when the guard had fired
    earlier; the guard is set afterwards. *)
Theorem tracker_Close_finalizes_then_delegates
        (t : nat) (tr : tracker) (bd : ExtBody) (w : World) :
  trackers w !! t = Some tr ->
  body tr = Some bd ->
  fst (tracker_Close t w) = fst (ExtBody_Close bd (env w)) /\
  env (snd (tracker_Close t w)) = snd (ExtBody_Close bd (env w)) /\
  trackers (snd (tracker_Close t w)) !! t = Some (set_done tr) /\
  log (snd (tracker_Close t w)) =
    log w ++ (if endOnce tr then [] else [sample_of tr (env w)]) ++ [CallClose bd].
Proof.
  intros Ht Hbd. rewrite (tracker_Close_run t tr bd w Ht Hbd). cbn.
  do 2 (split; [reflexivity|]). split; [|reflexivity].
  destruct tr as [c s bo [|] ls rec]; cbn.
  - exact Ht.
  - apply (lookup_set_done t (mkTracker c s bo false ls rec)), Ht.
Qed.

Lemma lookup_fresh (l : list tracker) (tr : tracker) :
  (l ++ [tr]) !! length l = Some tr.
Proof. apply list_lookup_middle. reflexivity. Qed.

Lemma insert_fresh (l : list tracker) (tr tr' : tracker) :
  <[length l := tr']> (l ++ [tr]) = l ++ [tr'].
Proof.
  rewrite insert_app_r_alt by lia.
  replace (length l - length l)%nat with O by lia. reflexivity.
Qed.

(** [RoundTrip] when the base transport returns an error. *)
Lemma RoundTrip_error_run
        (trans : instrumentedTransport) (req : Request) (w : World)
        (resp : option (Response ResponseData ExtBody)) (err : error) (e' : Env) :
  Transport_RoundTrip (base trans) req (env w) = (Returned (resp, Some err), e') ->
  let tr := finalized_tracker trans req (env w) StatusInternalServerError in
  RoundTrip trans req w =
    (Returned (option_map lift_Response resp, Some err),
     mkWorld e' (trackers w ++ [tr])
       (log w ++ [CallRoundTrip (base trans) req; sample_of tr e'])).
Proof.
  intros Hb tr. subst tr.
  unfold RoundTrip, bind, get_env, alloc, call. cbn.
  rewrite Hb. cbn. unfold load, store, bind. cbn.
  rewrite lookup_fresh. cbn. rewrite insert_fresh.
  unfold tracker_end, bind, load. cbn. rewrite lookup_fresh. cbn.
  rewrite lookup_fresh. unfold store. cbn. rewrite insert_fresh.
  rewrite <- app_assoc. reflexivity.
Qed.

(** [RoundTrip] when the base transport returns a response without a
    body. *)
Lemma RoundTrip_nil_body_run
        (trans : instrumentedTransport) (req : Request) (w : World)
        (r : Response ResponseData ExtBody) (e' : Env) :
  Transport_RoundTrip (base trans) req (env w) = (Returned (Some r, None), e') ->
  Body r = None ->
  let tr := finalized_tracker trans req (env w) (StatusCode r) in
  RoundTrip trans req w =
    (Returned (Some (lift_Response r), None),
     mkWorld e' (trackers w ++ [tr])
       (log w ++ [CallRoundTrip (base trans) req; sample_of tr e'])).
Proof.
  intros Hb Hnil tr. subst tr.
  unfold RoundTrip, bind, get_env, alloc, call. cbn.
  rewrite Hb. cbn. unfold load, store, bind. cbn.
  rewrite lookup_fresh. cbn. rewrite insert_fresh. rewrite Hnil.
  unfold tracker_end, bind, load. cbn. rewrite lookup_fresh. cbn.
  rewrite lookup_fresh. unfold store. cbn. rewrite insert_fresh.
  rewrite <- app_assoc. reflexivity.
Qed.

(** The remaining successful case: the response has a body, nothing is
    recorded yet, and the body is replaced by its wrapper. *)
Lemma RoundTrip_body_run
      (trans : instrumentedTransport) (req : Request) (w : World)
      (r : Response ResponseData ExtBody) (bd : ExtBody) (e' : Env) :
  Transport_RoundTrip (base trans) req (env w) = (Returned (Some r, None), e') ->
  Body r = Some bd ->
  RoundTrip trans req w =
    (Returned (Some (set_Body r (Some (wrappedBodyIO (Wrapper (length (trackers w)))
                                                    (Original bd)))), None),
     mkWorld e'
       (trackers w ++
          [mkTracker (Request_Context req) (now (env w)) (Some bd) false
             (HTTPClientAttributesFromHTTPRequest req ++
                HTTPAttributesFromHTTPStatusCode (StatusCode r))
             (trans_clientDurationRecorder trans)])
       (log w ++ [CallRoundTrip (base trans) req])).
Proof.
  intros Hb Hbd.
  unfold RoundTrip, bind, get_env, alloc, call. cbn.
  rewrite Hb. cbn. unfold load, store, bind. cbn.
  rewrite lookup_fresh. cbn. rewrite insert_fresh. rewrite Hbd.
  cbn. rewrite lookup_fresh. cbn. rewrite insert_fresh. reflexivity.
Qed.

Lemma RoundTrip_panic_run
      (trans : instrumentedTransport) (req : Request) (w : World)
      (reason : string) (e' : Env) :
  Transport_RoundTrip (base trans) req (env w) = (Panicked reason, e') ->
  exists trs, RoundTrip trans req w =
    (Panicked reason, mkWorld e' trs (log w ++ [CallRoundTrip (base trans) req])).
Proof.
  intros Hb. unfold RoundTrip, bind, get_env, alloc, call. cbn.
  rewrite Hb. eexists. reflexivity.
Qed.

Lemma RoundTrip_nil_nil_run
      (trans : instrumentedTransport) (req : Request) (w : World) (e' : Env) :
  Transport_RoundTrip (base trans) req (env w) = (Returned (None, None), e') ->
  exists trs, RoundTrip trans req w =
    (Panicked nil_dereference, mkWorld e' trs (log w ++ [CallRoundTrip (base trans) req])).
Proof.
  intros Hb. unfold RoundTrip, bind, get_env, alloc, call. cbn.
  rewrite Hb. eexists. reflexivity.
Qed.

(** Operations on a body that was not wrapped never reach a tracker. *)
Lemma run_ops_Original (bd : ExtBody) (ops : list Op) (w : World) :
  samples (log (snd (run_ops (Original bd) ops w))) = samples (log w).
Proof.
  revert w. induction ops as [|op ops IH]; intros w; [reflexivity|].
  cbn [run_ops].
  destruct (run_op (Original bd) op w) as [r w1] eqn:Hop.
  specialize (IH w1).
  destruct (run_ops (Original bd) ops w1) as [rs w2]. cbn in *.
  rewrite IH. clear IH.
  destruct op as [b| |p|f]; cbn in Hop.
  - unfold call in Hop. destruct (ExtBody_Read bd b (env w)) as [o e1].
    inversion Hop; subst. cbn. rewrite samples_app. cbn. lia.
  - unfold call in Hop. destruct (ExtBody_Close bd (env w)) as [o e1].
    inversion Hop; subst. cbn. rewrite samples_app. cbn. lia.
  - unfold Write in Hop. cbn in Hop.
    destruct (ExtBody_isWriter bd).
    + unfold call in Hop. destruct (ExtBody_Write bd p (env w)) as [o e1].
      inversion Hop; subst. cbn. rewrite samples_app. cbn. lia.
    + inversion Hop; subst. reflexivity.
  - inversion Hop; subst. reflexivity.
Qed.

Lemma Read_wraps (t : nat) (v : ReadCloser) (b : list Byte.byte) :
  wraps t v -> Read v b = tracker_Read t b.
Proof. intros [->|[wr ->]]; reflexivity. Qed.

Lemma Close_wraps (t : nat) (v : ReadCloser) :
  wraps t v -> Close v = tracker_Close t.
Proof. intros [->|[wr ->]]; reflexivity. Qed.

(** One operation on the wrapped body: the guard goes from [d] to
    [d || finalizes r], and a sample is recorded exactly when it goes from
    clear to set. *)
Lemma run_op_wrapped (t : nat) (bd : ExtBody) (v : ReadCloser) (d : bool)
      (op : Op) (w : World) :
  wraps t v ->
  tracked t bd d w ->
  tracked t bd (d || finalizes (fst (run_op v op w))) (snd (run_op v op w)) /\
  samples (log (snd (run_op v op w))) =
    (samples (log w) + (if negb d && finalizes (fst (run_op v op w)) then 1 else 0))%nat.
Proof.
  intros Hv (tr & Ht & Hbd & Hd).
  destruct op as [b| |p|f]; cbn [run_op].
  - rewrite (Read_wraps t v b Hv).
    rewrite (tracker_Read_run t tr bd b w Ht Hbd).
    destruct (ExtBody_Read bd b (env w)) as [o e1]. cbn [fst snd].
    rewrite Hd.
    destruct (finalizes (ResRead o)) eqn:Hf; destruct d; cbn [andb negb orb].
    + split; [exists tr; auto|]. cbn. rewrite samples_app. cbn. lia.
    + split.
      * exists (set_done tr). cbn. split; [apply lookup_set_done, Ht|]. auto.
      * cbn. rewrite samples_app. cbn. lia.
    + split; [exists tr; auto|]. cbn. rewrite samples_app. cbn. lia.
    + split; [exists tr; auto|]. cbn. rewrite samples_app. cbn. lia.
  - rewrite (Close_wraps t v Hv).
    rewrite (tracker_Close_run t tr bd w Ht Hbd).
    destruct (ExtBody_Close bd (env w)) as [o e1]. cbn [fst snd finalizes].
    rewrite Hd. destruct d; cbn [andb negb orb].
    + split; [exists tr; auto|]. cbn. rewrite samples_app. cbn. lia.
    + split.
      * exists (set_done tr). cbn. split; [apply lookup_set_done, Ht|]. auto.
      * cbn. rewrite !samples_app. cbn. lia.
  - destruct Hv as [->|[wr ->]]; unfold Write; cbn.
    + rewrite orb_false_r, andb_false_r. split; [exists tr; auto|]. lia.
    + unfold call. destruct (ExtBody_Write wr p (env w)) as [o e1]. cbn.
      rewrite orb_false_r, andb_false_r. split; [exists tr; auto|].
      rewrite samples_app. cbn. lia.
  - cbn. rewrite orb_false_r, andb_false_r. split; [exists tr; auto|]. lia.
Qed.

Lemma run_ops_wrapped (t : nat) (bd : ExtBody) (v : ReadCloser)
      (ops : list Op) (d : bool) (w : World) :
  wraps t v ->
  tracked t bd d w ->
  tracked t bd (d || existsb finalizes (fst (run_ops v ops w))) (snd (run_ops v ops w)) /\
  samples (log (snd (run_ops v ops w))) =
    (samples (log w) +
       (if negb d && existsb finalizes (fst (run_ops v ops w)) then 1 else 0))%nat.
Proof.
  intros Hv. revert d w.
  induction ops as [|op ops IH]; intros d w Hw.
  - cbn. rewrite orb_false_r, andb_false_r. split; [exact Hw|lia].
  - cbn [run_ops].
    destruct (run_op_wrapped t bd v d op w Hv Hw) as [Hw1 Hs1].
    destruct (run_op v op w) as [r w1]. cbn [fst snd] in *.
    destruct (IH _ w1 Hw1) as [Hw2 Hs2].
    destruct (run_ops v ops w1) as [rs w2]. cbn [fst snd existsb] in *.
    rewrite orb_assoc. split; [exact Hw2|].
    rewrite Hs2, Hs1.
    destruct d, (finalizes r), (existsb finalizes rs); cbn; lia.
Qed.

Lemma end_times_done (n t : nat) (tr : tracker) (w : World) :
  trackers w !! t = Some tr ->
  endOnce tr = true ->
  end_times n t w = (Returned tt, w).
Proof.
  intros Ht Hd. induction n as [|n IH]; [reflexivity|].
  cbn [end_times]. unfold bind.
  rewrite (tracker_end_run t tr w Ht), Hd. exact IH.
Qed.

(** C2. When the base transport returns an error, [RoundTrip] returns that
    same error (with the response pointer it came with); by the time it
    returns, the one sample of the call has been recorded, after the base
    call, labelled with the request's attributes followed by those of
    status 500, and the guard of the tracker is set. *)
Theorem RoundTrip_error
        (trans : instrumentedTransport) (req : Request) (w : World)
        (resp : option (Response ResponseData ExtBody)) (err : error) (e' : Env) :
  Transport_RoundTrip (base trans) req (env w) = (Returned (resp, Some err), e') ->
  fst (RoundTrip trans req w) = Returned (option_map lift_Response resp, Some err) /\
  (exists v : Q,
     log (snd (RoundTrip trans req w)) =
       log w ++ [CallRoundTrip (base trans) req;
                 CallRecord (trans_clientDurationRecorder trans) (Request_Context req) v
                   (HTTPClientAttributesFromHTTPRequest req ++
                      HTTPAttributesFromHTTPStatusCode 500)]) /\
  (exists tr : tracker,
     trackers (snd (RoundTrip trans req w)) !! length (trackers w) = Some tr /\
     endOnce tr = true /\
     labels tr = HTTPClientAttributesFromHTTPRequest req ++
                   HTTPAttributesFromHTTPStatusCode 500).
Proof.
  intros Hb. rewrite (RoundTrip_error_run trans req w resp err e' Hb). cbn.
  split; [reflexivity|]. split.
  - eexists. reflexivity.
  - eexists. split; [apply lookup_fresh|]. split; reflexivity.
Qed.

(** C5. When the base transport succeeds with a response that has no
    body, the one sample of the call has been recorded by the time
    [RoundTrip] returns, labelled with the request's attributes followed
    by those of the response's own status code, and the guard of the
    tracker is set. *)
Theorem RoundTrip_nil_body
        (trans : instrumentedTransport) (req : Request) (w : World)
        (r : Response ResponseData ExtBody) (e' : Env) :
  Transport_RoundTrip (base trans) req (env w) = (Returned (Some r, None), e') ->
  Body r = None ->
  fst (RoundTrip trans req w) = Returned (Some (lift_Response r), None) /\
  (exists v : Q,
     log (snd (RoundTrip trans req w)) =
       log w ++ [CallRoundTrip (base trans) req;
                 CallRecord (trans_clientDurationRecorder trans) (Request_Context req) v
                   (HTTPClientAttributesFromHTTPRequest req ++
                      HTTPAttributesFromHTTPStatusCode (StatusCode r))]) /\
  (exists tr : tracker,
     trackers (snd (RoundTrip trans req w)) !! length (trackers w) = Some tr /\
     endOnce tr = true /\
     labels tr = HTTPClientAttributesFromHTTPRequest req ++
                   HTTPAttributesFromHTTPStatusCode (StatusCode r)).
Proof.
  intros Hb Hnil. rewrite (RoundTrip_nil_body_run trans req w r e' Hb Hnil). cbn.
  split; [reflexivity|]. split.
  - eexists. reflexivity.
  - eexists. split; [apply lookup_fresh|]. split; reflexivity.
Qed.

(** C6. The wrapped body passes the [io.Writer] assertion exactly when the
    original does.  When the original is a writer, the result is the
    two-field struct made of the wrapper and of the original's writer;
    when it is not, the result is the wrapper itself, and a tracker has no
    [Write].  Either way [Read] and [Close] of the result are the
    wrapper's. *)
Theorem wrappedBodyIO_Writer (t : nat) (wrapper body : ReadCloser) :
  as_Writer (wrappedBodyIO (Wrapper t) body) = as_Writer body /\
  (is_Some (Write (wrappedBodyIO (Wrapper t) body)) <-> is_Some (Write body)) /\
  match as_Writer body with
  | Some wr => wrappedBodyIO wrapper body = ReadCloserWriter wrapper wr
  | None => wrappedBodyIO wrapper body = wrapper /\
            as_Writer (wrappedBodyIO (Wrapper t) body) = None
  end /\
  (forall b, Read (wrappedBodyIO wrapper body) b = Read wrapper b) /\
  Close (wrappedBodyIO wrapper body) = Close wrapper.
Proof.
  unfold wrappedBodyIO, Write.
  destruct (as_Writer body) as [wr|] eqn:Hw; cbn.
  - split; [reflexivity|]. split; [split; intros _; eexists; reflexivity|].
    split; [reflexivity|]. split; reflexivity.
  - split; [reflexivity|]. split; [reflexivity|].
    split; [split; reflexivity|]. split; reflexivity.
Qed.

(** C10. When the original body is a writer, [Write] on the body
    [RoundTrip] hands out is the original's [Write]: it is called once
    with the same bytes, its result is handed back, no tracker changes
    (no guard fires) and no sample is recorded. *)
Theorem Write_bypasses_tracker
        (t : nat) (bd : ExtBody) (p : list Byte.byte) (w : World) :
  ExtBody_isWriter bd = true ->
  exists f,
    Write (wrappedBodyIO (Wrapper t) (Original bd)) = Some f /\
    fst (f p w) = fst (ExtBody_Write bd p (env w)) /\
    env (snd (f p w)) = snd (ExtBody_Write bd p (env w)) /\
    trackers (snd (f p w)) = trackers w /\
    log (snd (f p w)) = log w ++ [CallWrite bd p] /\
    samples (log (snd (f p w))) = samples (log w).
Proof.
  intros Hw. unfold wrappedBodyIO, Write. cbn. rewrite Hw. cbn.
  eexists. split; [reflexivity|]. unfold call.
  destruct (ExtBody_Write bd p (env w)) as [o e1]. cbn.
  repeat (split; [reflexivity|]).
  rewrite samples_app. cbn. lia.
Qed.

Lemma wraps_wrappedBodyIO (t : nat) (bd : ExtBody) :
  wraps t (wrappedBodyIO (Wrapper t) (Original bd)).
Proof.
  unfold wraps, wrappedBodyIO. cbn.
  destruct (ExtBody_isWriter bd); [right; eexists; reflexivity|left; reflexivity].
Qed.

(** C1 (as amended). Over one outbound call and any sequence of reads,
    closes and writes on the body it hands out, the recorder receives one
    sample when something finalized the measurement (the base transport
    returned an error, or a response without a body, or some [Close] was
    called, or some [Read] came back with [io.EOF]) and none otherwise;
    so never more than one.  And [end()] called any number of times in a
    row records what one call records, which is at most one sample. *)
Theorem samples_per_call
        (trans : instrumentedTransport) (req : Request) (ops : list Op) (w : World) :
  (samples (log (snd (outbound_call trans req ops w))) =
     (samples (log w) +
        (if finalized_by_RoundTrip (fst (Transport_RoundTrip (base trans) req (env w)))
            || existsb finalizes (fst (outbound_call trans req ops w))
         then 1 else 0))%nat) /\
  (samples (log (snd (outbound_call trans req ops w))) <= samples (log w) + 1)%nat /\
  (forall (t n : nat) (w0 : World),
     samples (log (snd (end_times (S n) t w0))) = samples (log (snd (tracker_end t w0))) /\
     (samples (log (snd (tracker_end t w0))) <= samples (log w0) + 1)%nat).
Proof.
  assert (Hmain :
    samples (log (snd (outbound_call trans req ops w))) =
      (samples (log w) +
         (if finalized_by_RoundTrip (fst (Transport_RoundTrip (base trans) req (env w)))
             || existsb finalizes (fst (outbound_call trans req ops w))
          then 1 else 0))%nat).
  { unfold outbound_call.
    destruct (Transport_RoundTrip (base trans) req (env w))
      as [[[resp [err|]]|reason] e'] eqn:Hb; cbn [fst finalized_by_RoundTrip].
    - rewrite (RoundTrip_error_run trans req w resp err e' Hb). cbn [orb].
      destruct resp as [r|]; cbn [option_map].
      + unfold lift_Response. cbn [set_Body Body].
        destruct (Body r) as [bd|]; cbn [option_map].
        * rewrite run_ops_Original. cbn. rewrite samples_app. cbn. lia.
        * cbn. rewrite samples_app. cbn. lia.
      + cbn. rewrite samples_app. cbn. lia.
    - destruct resp as [r|].
      + destruct (Body r) as [bd|] eqn:Hbd.
        * rewrite (RoundTrip_body_run trans req w r bd e' Hb Hbd).
          cbn [set_Body Body].
          set (t := length (trackers w)).
          set (v := wrappedBodyIO (Wrapper t) (Original bd)).
          set (w1 := mkWorld e' _ _).
          assert (Hw1 : tracked t bd false w1).
          { eexists. split; [apply lookup_fresh|]. split; reflexivity. }
          destruct (run_ops_wrapped t bd v ops false w1
                      (wraps_wrappedBodyIO t bd) Hw1) as [_ Hs].
          rewrite Hs. subst w1. cbn. rewrite samples_app. cbn. lia.
        * rewrite (RoundTrip_nil_body_run trans req w r e' Hb Hbd).
          unfold lift_Response. rewrite Hbd. cbn. rewrite samples_app. cbn. lia.
      + destruct (RoundTrip_nil_nil_run trans req w e' Hb) as [trs ->].
        cbn. rewrite samples_app. cbn. lia.
    - destruct (RoundTrip_panic_run trans req w reason e' Hb) as [trs ->].
      cbn. rewrite samples_app. cbn. lia. }
  split; [exact Hmain|]. split.
  - rewrite Hmain.
    destruct (_ || _); lia.
  - intros t n w0.
    destruct (trackers w0 !! t) as [tr|] eqn:Ht.
    + cbn [end_times]. unfold bind.
      rewrite (tracker_end_run t tr w0 Ht). cbn [snd].
      destruct (endOnce tr) eqn:Hd.
      * rewrite (end_times_done n t tr w0 Ht Hd). cbn. lia.
      * rewrite (end_times_done n t (set_done tr)); cbn;
          [|apply lookup_set_done, Ht|reflexivity].
        rewrite samples_app. cbn. lia.
    + cbn [end_times]. unfold bind.
      rewrite (tracker_end_dangling t w0 Ht). cbn. lia.
Qed.

End Proofs.

(** *** The theorems at work on the concrete transport *)

Import OtelhttpDemo.

(** C1, as stated, fails: a body that is read without reaching the end of
    the stream and is never closed leaves the recorder without a sample;
    so does a body whose reads fail with another error. *)
Lemma no_sample_without_EOF_or_Close :
  samples (log (snd (outbound_call demo_transport GetItems
                       [OpRead buf4; OpRead buf4] demo_world))) = O /\
  samples (log (snd (outbound_call demo_transport GetBroken
                       [OpRead buf4; OpRead buf4] demo_world))) = O /\
  ~ (forall ops : list Op,
       samples (log (snd (outbound_call demo_transport GetItems ops demo_world))) = 1%nat).
Proof.
  split; [vm_compute; reflexivity|]. split; [vm_compute; reflexivity|].
  intros Hc. specialize (Hc [OpRead buf4; OpRead buf4]).
  vm_compute in Hc. discriminate Hc.
Qed.

(** Three chunks, the end of the stream, then a close: one sample, already
    there before the close. *)
Example three_chunks_then_close :
  samples (log (snd (outbound_call demo_transport GetItems
                       [OpRead buf4; OpRead buf4; OpRead buf4; OpRead buf4]
                       demo_world))) = 1%nat /\
  samples (log (snd (outbound_call demo_transport GetItems
                       [OpRead buf4; OpRead buf4; OpRead buf4; OpRead buf4; OpClose]
                       demo_world))) = 1%nat.
Proof. split; vm_compute; reflexivity. Qed.

Lemma RoundTrip_error_witness :
  fst (RoundTrip demo_transport GetUnreachable demo_world)
    = Returned (None, Some ErrDial) /\
  (exists v : Q,
     log (snd (RoundTrip demo_transport GetUnreachable demo_world)) =
       [CallRoundTrip tt GetUnreachable;
        CallRecord tt tt v [inl ("http.method", "GET"); inr ("http.status_code", 500)]]%string) /\
  (exists tr : tracker,
     trackers (snd (RoundTrip demo_transport GetUnreachable demo_world)) !! O = Some tr /\
     endOnce tr = true /\
     labels tr = [inl ("http.method", "GET"); inr ("http.status_code", 500)]%string).
Proof.
  exact (RoundTrip_error demo_transport GetUnreachable demo_world None ErrDial
           (tick (env demo_world)) eq_refl).
Defined.

Lemma RoundTrip_nil_body_witness :
  fst (RoundTrip demo_transport DeleteItem demo_world)
    = Returned (Some (mkResponse 204 None tt), None) /\
  (exists v : Q,
     log (snd (RoundTrip demo_transport DeleteItem demo_world)) =
       [CallRoundTrip tt DeleteItem;
        CallRecord tt tt v [inl ("http.method", "DELETE"); inr ("http.status_code", 204)]]%string) /\
  (exists tr : tracker,
     trackers (snd (RoundTrip demo_transport DeleteItem demo_world)) !! O = Some tr /\
     endOnce tr = true /\
     labels tr = [inl ("http.method", "DELETE"); inr ("http.status_code", 204)]%string).
Proof.
  exact (RoundTrip_nil_body demo_transport DeleteItem demo_world
           (mkResponse 204 None tt) (tick (env demo_world)) eq_refl eq_refl).
Defined.

(** The fourth read of the chunked body comes back with the end of the
    stream: it is handed on as it is, and the sample is recorded. *)
Lemma tracker_Read_passthrough_witness :
  let w := snd (run_ops (Wrapper O) [OpRead buf4; OpRead buf4; OpRead buf4] after_GetItems) in
  fst (tracker_Read O buf4 w) = Returned (buf4, (0, Some ErrEOF)) /\
  samples (log (snd (tracker_Read O buf4 w))) = 1%nat /\
  samples (log w) = O.
Proof.
  set (w := snd (run_ops (Wrapper O) [OpRead buf4; OpRead buf4; OpRead buf4] after_GetItems)).
  destruct (tracker_Read_passthrough O
              (@mkTracker demo tt 0 (Some Chunked) false
                 [inl ("http.method", "GET"); inr ("http.status_code", 200)]%string tt)
              Chunked buf4 w eq_refl eq_refl) as (Hres & _ & Hfin & _).
  split; [exact Hres|].
  destruct (Hfin eq_refl) as [_ Hlog].
  split; [rewrite Hlog; vm_compute; reflexivity|vm_compute; reflexivity].
Defined.

(** A close after the end of the stream: the body is closed all the same,
    and no second sample is recorded. *)
Lemma tracker_Close_witness :
  let w := snd (run_ops (Wrapper O) [OpRead buf4; OpRead buf4; OpRead buf4; OpRead buf4]
                  after_GetItems) in
  fst (tracker_Close O w) = Returned None /\
  log (snd (tracker_Close O w)) = log w ++ [CallClose Chunked] /\
  closes (env (snd (tracker_Close O w))) = 1%nat.
Proof.
  set (w := snd (run_ops (Wrapper O) [OpRead buf4; OpRead buf4; OpRead buf4; OpRead buf4]
                   after_GetItems)).
  destruct (tracker_Close_finalizes_then_delegates O
              (@mkTracker demo tt 0 (Some Chunked) true
                 [inl ("http.method", "GET"); inr ("http.status_code", 200)]%string tt)
              Chunked w eq_refl eq_refl) as (Hres & Henv & _ & Hlog).
  split; [exact Hres|]. split; [exact Hlog|].
  rewrite Henv. vm_compute. reflexivity.
Defined.

Lemma Write_bypasses_tracker_witness :
  exists f,
    Write (wrappedBodyIO (Wrapper O) (@Original demo Pipe)) = Some f /\
    fst (f buf4 after_GetPipe) = Returned (4, None) /\
    trackers (snd (f buf4 after_GetPipe)) = trackers after_GetPipe /\
    samples (log (snd (f buf4 after_GetPipe))) = O.
Proof.
  destruct (@Write_bypasses_tracker demo O Pipe buf4 after_GetPipe eq_refl)
    as (f & Hf & Hres & _ & Htr & _ & Hs).
  exists f. split; [exact Hf|]. split; [exact Hres|]. split; [exact Htr|].
  rewrite Hs. vm_compute. reflexivity.
Defined.

End OtelhttpSpec.

(** ** Properties of the span filter *)

Module RestfulSpec.
Import Restful.

Section Proofs.

Context `{Collaborators}.

Lemma count_app (p : Event -> bool) (l1 l2 : list Event) :
  count p (l1 ++ l2) = (count p l1 + count p l2)%nat.
Proof.
  induction l1 as [|ev l1 IH]; simpl; [reflexivity|].
  rewrite IH. lia.
Qed.

(** One run of the closure over a configuration whose two fields are
    set. *)
Lemma filter_run (service : string) (tracer : trace_Tracer)
      (props : propagation_Propagators)
      (req : Request) (resp : Response) (chain : FilterChain) (w : World) :
  let route := SelectedRoutePath req (env w) in
  let span := started_span tracer props service req (env w) in
  let pf := ProcessFilter chain req resp (chain_env tracer props service req (env w)) in
  let status := Response_StatusCode resp (snd pf) in
  filter (mkConfig (Some tracer) (Some props)) service req resp chain w =
    (fst pf,
     mkWorld (snd pf)
       (log w ++
          [CallStart tracer (extracted props req (env w)) route
             (start_options service route (Request_Request req (env w)));
           CallProcessFilter chain req resp] ++
          (match fst pf with
           | Returned _ =>
               [CallSetAttributes span (HTTPAttributesFromHTTPStatusCode status);
                CallSetStatus span (fst (SpanStatusFromHTTPStatusCode status))
                                   (snd (SpanStatusFromHTTPStatusCode status))]
           | Panicked _ => []
           end) ++ [CallEnd span])).
Proof.
  intros route span pf status. subst route span pf status.
  unfold filter, chain_env, started_span, extracted, bind, get_env, deref, sdk_call. cbn.
  destruct (Tracer_Start _ _ _ _ _) as [[c' span] e1]. cbn.
  unfold defer, bind, modify_env, call, get_env, emit. cbn.
  destruct (ProcessFilter _ _ _ _) as [[[]|reason] e2]; cbn.
  - destruct (SpanStatusFromHTTPStatusCode _) as [code msg]. cbn.
    rewrite <- !app_assoc. reflexivity.
  - rewrite <- !app_assoc. reflexivity.
Qed.

(** What [OTelFilter] returns and reads. *)
Lemma OTelFilter_run (service : string) (opts : list Option) (w0 : World) :
  let cfg := apply_opts opts (mkConfig None None) in
  let reads :=
    (match Tracer cfg with Some _ => [] | None => [ReadGlobalTraceProvider] end) ++
    (match Propagators cfg with Some _ => [] | None => [ReadGlobalPropagators] end) in
  OTelFilter service opts w0 =
    (Returned (filter (mkConfig (Some (resolved_Tracer opts (env w0)))
                                (Some (resolved_Propagators opts (env w0)))) service),
     mkWorld (env w0) (log w0 ++ reads)).
Proof.
  intros cfg reads. subst reads.
  unfold OTelFilter, resolved_Tracer, resolved_Propagators. fold cfg.
  destruct cfg as [[tr|] [p|]];
    unfold bind, resolve, bind, get_env, emit, ret; cbn.
  - rewrite app_nil_r. destruct w0; reflexivity.
  - reflexivity.
  - reflexivity.
  - rewrite <- app_assoc. reflexivity.
Qed.

Lemma OTelFilter_closure (service : string) (opts : list Option) (w0 w1 : World)
      (f : FilterFunction) :
  OTelFilter service opts w0 = (Returned f, w1) ->
  f = filter (mkConfig (Some (resolved_Tracer opts (env w0)))
                       (Some (resolved_Propagators opts (env w0)))) service.
Proof.
  intros Hf. rewrite OTelFilter_run in Hf. cbv zeta in Hf.
  inversion Hf. reflexivity.
Qed.

(** C7. One run of a filter returned by [OTelFilter] calls [Tracer.Start]
    once, then the rest of the chain, and [End] once on the span that
    [Start] returned, last of all; nothing in between starts or ends a
    span.  This holds whatever the rest of the chain does: the outcome of
    the filter is the outcome of the chain, a panic included, and the
    [End] is in the log in either case. *)
Theorem span_started_and_ended_once
        (service : string) (opts : list Option) (w0 w1 : World) (f : FilterFunction)
        (req : Request) (resp : Response) (chain : FilterChain) (w : World) :
  OTelFilter service opts w0 = (Returned f, w1) ->
  let tracer := resolved_Tracer opts (env w0) in
  let props := resolved_Propagators opts (env w0) in
  let route := SelectedRoutePath req (env w) in
  exists mid,
    log (snd (f req resp chain w)) =
      log w ++
        [CallStart tracer (extracted props req (env w)) route
           (start_options service route (Request_Request req (env w)))] ++
        [CallProcessFilter chain req resp] ++ mid ++
        [CallEnd (started_span tracer props service req (env w))] /\
    count is_Start mid = O /\
    count is_End mid = O /\
    count is_Start (log (snd (f req resp chain w))) = S (count is_Start (log w)) /\
    count is_End (log (snd (f req resp chain w))) = S (count is_End (log w)) /\
    fst (f req resp chain w) =
      fst (ProcessFilter chain req resp (chain_env tracer props service req (env w))).
Proof.
  intros Hf tracer props route.
  rewrite (OTelFilter_closure service opts w0 w1 f Hf).
  rewrite filter_run. cbn [fst snd log].
  fold tracer props route.
  set (pf := ProcessFilter chain req resp (chain_env tracer props service req (env w))).
  eexists. split; [reflexivity|].
  destruct (fst pf) as [u|reason]; cbn [count is_Start is_End];
    (split; [reflexivity|]); (split; [reflexivity|]);
    rewrite !count_app; cbn; (split; [lia|]); (split; [lia|reflexivity]).
Qed.

(** C8. When the rest of the chain returns, the span was started under
    the name of the request's selected route path, and after the chain it
    receives the attributes of the response's status code as the chain
    left it, then the status code and message classified from that same
    status code, and only then [End]. *)
Theorem span_annotated_with_final_status
        (service : string) (opts : list Option) (w0 w1 : World) (f : FilterFunction)
        (req : Request) (resp : Response) (chain : FilterChain) (w : World) (e2 : Env) :
  OTelFilter service opts w0 = (Returned f, w1) ->
  let tracer := resolved_Tracer opts (env w0) in
  let props := resolved_Propagators opts (env w0) in
  ProcessFilter chain req resp (chain_env tracer props service req (env w))
    = (Returned tt, e2) ->
  let route := SelectedRoutePath req (env w) in
  let span := started_span tracer props service req (env w) in
  let status := Response_StatusCode resp e2 in
  f req resp chain w =
    (Returned tt,
     mkWorld e2
       (log w ++
          [CallStart tracer (extracted props req (env w)) route
             (start_options service route (Request_Request req (env w)));
           CallProcessFilter chain req resp;
           CallSetAttributes span (HTTPAttributesFromHTTPStatusCode status);
           CallSetStatus span (fst (SpanStatusFromHTTPStatusCode status))
                              (snd (SpanStatusFromHTTPStatusCode status));
           CallEnd span])).
Proof.
  intros Hf tracer props Hpf route span status.
  rewrite (OTelFilter_closure service opts w0 w1 f Hf).
  rewrite filter_run. fold tracer props. rewrite Hpf. reflexivity.
Qed.

(** C9. [OTelFilter] applies the options, then reads the registry for the
    tracer only when [Tracer] is still nil and for the propagators only
    when [Propagators] is still nil, each at most once, before it returns;
    the closure it returns holds the values so obtained.  A run of that
    closure, in whatever state the registry is by then, reads the registry
    never, starts its span on the captured tracer and extracts with the
    captured propagators. *)
Theorem OTelFilter_resolves_at_construction
        (service : string) (opts : list Option) (w0 : World) :
  let cfg := apply_opts opts (mkConfig None None) in
  let tracer :=
    match Tracer cfg with
    | Some tr => tr
    | None => Provider_Tracer (global_TraceProvider (env w0)) tracerName tracerVersion
    end in
  let props :=
    match Propagators cfg with
    | Some p => p
    | None => global_Propagators (env w0)
    end in
  let reads :=
    (match Tracer cfg with Some _ => [] | None => [ReadGlobalTraceProvider] end) ++
    (match Propagators cfg with Some _ => [] | None => [ReadGlobalPropagators] end) in
  let f := filter (mkConfig (Some tracer) (Some props)) service in
  OTelFilter service opts w0 = (Returned f, mkWorld (env w0) (log w0 ++ reads)) /\
  forall (req : Request) (resp : Response) (chain : FilterChain) (w : World),
    count is_global_read (log (snd (f req resp chain w))) = count is_global_read (log w) /\
    exists rest,
      log (snd (f req resp chain w)) =
        log w ++
          CallStart tracer (extracted props req (env w)) (SelectedRoutePath req (env w))
            (start_options service (SelectedRoutePath req (env w))
               (Request_Request req (env w))) :: rest.
Proof.
  intros cfg tracer props reads f. split.
  - apply OTelFilter_run.
  - intros req resp chain w. subst f. rewrite filter_run. cbn [fst snd log].
    split.
    + rewrite !count_app.
      destruct (fst (ProcessFilter _ _ _ _)); cbn; lia.
    + eexists. reflexivity.
Qed.

End Proofs.

(** *** The theorems at work on the concrete router *)

Import RestfulDemo.

(** A handler that panics: the filter panics with it, and the span was
    started once and ended once. *)
Lemma span_started_and_ended_once_witness :
  OTelFilter "items" [] demo_world = (Returned demo_filter, after_construction) /\
  count is_Start (log (snd (demo_filter tt tt HandlerPanics after_construction))) = 1%nat /\
  count is_End (log (snd (demo_filter tt tt HandlerPanics after_construction))) = 1%nat /\
  fst (demo_filter tt tt HandlerPanics after_construction)
    = Panicked "handler panicked"%string.
Proof.
  split; [reflexivity|].
  destruct (@span_started_and_ended_once demo "items" [] demo_world after_construction
              demo_filter tt tt HandlerPanics after_construction eq_refl)
    as (mid & _ & _ & _ & Hs & He & Ho).
  split; [exact Hs|]. split; [exact He|exact Ho].
Defined.

(** A handler that writes 500 and then 404: the span is named after the
    route and carries the attributes and the status of 404. *)
Lemma span_annotated_with_final_status_witness :
  OTelFilter "items" [] demo_world = (Returned demo_filter, after_construction) /\
  log (snd (demo_filter tt tt HandlerRewrites after_construction)) =
    [ ReadGlobalTraceProvider; ReadGlobalPropagators;
      CallStart 1%nat 2%nat "/items/{id}"
        [ WithAttributes [KVString "net.transport" "tcp"];
          WithAttributes [];
          WithAttributes [KVString "http.server_name" "items";
                          KVString "http.route" "/items/{id}";
                          KVString "http.method" "GET"];
          WithSpanKind SpanKindServer ];
      CallProcessFilter HandlerRewrites tt tt;
      CallSetAttributes O [KVInt "http.status_code" 404];
      CallSetStatus O 2 "HTTP status code";
      CallEnd O ]%string.
Proof.
  split; [reflexivity|].
  rewrite (@span_annotated_with_final_status demo "items" [] demo_world after_construction
             demo_filter tt tt HandlerRewrites after_construction
             (mkEnv 404 3 1 1 2) eq_refl eq_refl).
  reflexivity.
Defined.

(** A filter built while the registry held provider 1 goes on starting its
    spans on tracer 1 after a handler installed provider 7. *)
Example registry_swapped_after_construction :
  let w1 := snd (demo_filter tt tt HandlerSwapsRegistry after_construction) in
  registry_provider (env w1) = 7%nat /\
  exists c name opts rest,
    log (snd (demo_filter tt tt Handler200 w1)) =
      log w1 ++ CallStart 1%nat c name opts :: rest.
Proof.
  cbv zeta. split; [vm_compute; reflexivity|].
  do 4 eexists. vm_compute. reflexivity.
Qed.

End RestfulSpec.

(** ** Further properties of the metrics transport *)

Module OtelhttpExtra.
Import Otelhttp OtelhttpRuns.

Section Proofs.

Context `{Collaborators}.

Lemma records_app (l1 l2 : list Event) :
  records (l1 ++ l2) = records l1 ++ records l2.
Proof. apply List.filter_app. Qed.

Lemma body_calls_app (l1 l2 : list Event) :
  body_calls (l1 ++ l2) = body_calls l1 ++ body_calls l2.
Proof. apply List.filter_app. Qed.

Lemma samples_records (l : list Event) : samples l = length (records l).
Proof.
  induction l as [|ev l IH]; [reflexivity|].
  cbn. destruct (is_Record ev); cbn; rewrite IH; reflexivity.
Qed.

Lemma run_ops_cons (v : ReadCloser) (op : Op) (ops : list Op) (w : World) :
  run_ops v (op :: ops) w =
    (fst (run_op v op w) :: fst (run_ops v ops (snd (run_op v op w))),
     snd (run_ops v ops (snd (run_op v op w)))).
Proof.
  cbn [run_ops]. destruct (run_op v op w) as [r w1]. cbn [fst snd].
  destruct (run_ops v ops w1) as [rs w2]. reflexivity.
Qed.

(** One operation on a body that was not wrapped: a call on that body or
    nothing, and no tracker is touched. *)
Lemma run_op_Original_inv (bd : ExtBody) (op : Op) (w : World) :
  exists delta,
    log (snd (run_op (Original bd) op w)) = log w ++ delta /\
    records delta = [] /\
    trackers (snd (run_op (Original bd) op w)) = trackers w.
Proof.
  destruct op as [b| |p|f]; cbn [run_op Read Close].
  - unfold call. destruct (ExtBody_Read bd b (env w)) as [o e1]. cbn.
    eexists. split; [reflexivity|]. split; reflexivity.
  - unfold call. destruct (ExtBody_Close bd (env w)) as [o e1]. cbn.
    eexists. split; [reflexivity|]. split; reflexivity.
  - unfold Write. cbn. destruct (ExtBody_isWriter bd).
    + unfold call. destruct (ExtBody_Write bd p (env w)) as [o e1]. cbn.
      eexists. split; [reflexivity|]. split; reflexivity.
    + cbn. exists []. rewrite app_nil_r. split; [reflexivity|]. split; reflexivity.
  - cbn. exists []. rewrite app_nil_r. split; [reflexivity|]. split; reflexivity.
Qed.

Lemma run_ops_Original_inv (bd : ExtBody) (ops : list Op) (w : World) :
  exists delta,
    log (snd (run_ops (Original bd) ops w)) = log w ++ delta /\
    records delta = [] /\
    trackers (snd (run_ops (Original bd) ops w)) = trackers w.
Proof.
  revert w. induction ops as [|op ops IH]; intros w.
  - exists []. cbn. rewrite app_nil_r. split; [reflexivity|]. split; reflexivity.
  - rewrite run_ops_cons. cbn [snd].
    destruct (run_op_Original_inv bd op w) as (d1 & Hl1 & Hr1 & Ht1).
    destruct (IH (snd (run_op (Original bd) op w))) as (d2 & Hl2 & Hr2 & Ht2).
    exists (d1 ++ d2). rewrite Hl2, Hl1, Ht2, Ht1, records_app, Hr1, Hr2, app_assoc.
    split; [reflexivity|]. split; reflexivity.
Qed.

(** One operation on the body handed out for tracker [t]: either no sample
    and no change to the trackers, or (the guard was clear) one sample of
    that tracker and its guard set. *)
Lemma run_op_wrapped_inv (t : nat) (tr : tracker) (bd : ExtBody) (v : ReadCloser)
      (op : Op) (w : World) :
  wraps t v ->
  trackers w !! t = Some tr ->
  body tr = Some bd ->
  exists delta,
    log (snd (run_op v op w)) = log w ++ delta /\
    ((records delta = [] /\ trackers (snd (run_op v op w)) = trackers w) \/
     (endOnce tr = false /\
      (exists e, records delta = [sample_of tr e]) /\
      trackers (snd (run_op v op w)) = <[t := set_done tr]> (trackers w))).
Proof.
  intros Hv Ht Hbd.
  destruct op as [b| |p|f]; cbn [run_op].
  - rewrite (OtelhttpSpec.Read_wraps t v b Hv).
    rewrite (OtelhttpSpec.tracker_Read_run t tr bd b w Ht Hbd).
    destruct (ExtBody_Read bd b (env w)) as [o e1]. cbn [fst snd log trackers].
    eexists. split; [reflexivity|].
    destruct (finalizes (ResRead o) && negb (endOnce tr)) eqn:Hf.
    + right. apply andb_true_iff in Hf as [_ Hd]. apply negb_true_iff in Hd.
      split; [exact Hd|]. split; [|reflexivity]. exists e1. reflexivity.
    + left. split; reflexivity.
  - rewrite (OtelhttpSpec.Close_wraps t v Hv).
    rewrite (OtelhttpSpec.tracker_Close_run t tr bd w Ht Hbd).
    destruct (ExtBody_Close bd (env w)) as [o e1]. cbn [fst snd log trackers].
    eexists. split; [reflexivity|].
    destruct (endOnce tr) eqn:Hd.
    + left. split; reflexivity.
    + right. split; [reflexivity|]. split; [|reflexivity]. exists (env w). reflexivity.
  - destruct Hv as [->|[wr ->]]; unfold Write; cbn.
    + exists []. rewrite app_nil_r. split; [reflexivity|]. left. split; reflexivity.
    + unfold call. destruct (ExtBody_Write wr p (env w)) as [o e1]. cbn.
      eexists. split; [reflexivity|]. left. split; reflexivity.
  - cbn. exists []. rewrite app_nil_r. split; [reflexivity|]. left. split; reflexivity.
Qed.

Lemma run_ops_wrapped_inv (t : nat) (bd : ExtBody) (v : ReadCloser) (ops : list Op) :
  wraps t v ->
  forall (tr : tracker) (w : World),
    trackers w !! t = Some tr ->
    body tr = Some bd ->
    exists delta,
      log (snd (run_ops v ops w)) = log w ++ delta /\
      ((records delta = [] /\ trackers (snd (run_ops v ops w)) = trackers w) \/
       (endOnce tr = false /\
        (exists e, records delta = [sample_of tr e]) /\
        trackers (snd (run_ops v ops w)) = <[t := set_done tr]> (trackers w))).
Proof.
  intros Hv. induction ops as [|op ops IH]; intros tr w Ht Hbd.
  - exists []. cbn. rewrite app_nil_r. split; [reflexivity|]. left. split; reflexivity.
  - rewrite run_ops_cons. cbn [snd].
    destruct (run_op_wrapped_inv t tr bd v op w Hv Ht Hbd)
      as (d1 & Hl1 & [[Hr1 Ht1]|(Hd & [e He] & Ht1)]).
    + assert (Ht' : trackers (snd (run_op v op w)) !! t = Some tr)
        by (rewrite Ht1; exact Ht).
      destruct (IH tr _ Ht' Hbd) as (d2 & Hl2 & Hcase).
      exists (d1 ++ d2). rewrite Hl2, Hl1, app_assoc. split; [reflexivity|].
      rewrite records_app, Hr1, Ht1 in *. exact Hcase.
    + assert (Ht' : trackers (snd (run_op v op w)) !! t = Some (set_done tr))
        by (rewrite Ht1; apply OtelhttpSpec.lookup_set_done, Ht).
      destruct (IH (set_done tr) _ Ht' Hbd) as (d2 & Hl2 & [[Hr2 Ht2]|(Hd2 & _)]).
      * exists (d1 ++ d2). rewrite Hl2, Hl1, app_assoc. split; [reflexivity|].
        right. split; [exact Hd|]. split.
        -- exists e. rewrite records_app, He, Hr2. reflexivity.
        -- rewrite Ht2, Ht1. reflexivity.
      * discriminate Hd2.
Qed.

Lemma RoundTrip_panic_world
      (trans : instrumentedTransport) (req : Request) (w : World)
      (reason : string) (e' : Env) :
  Transport_RoundTrip (base trans) req (env w) = (Panicked reason, e') ->
  RoundTrip trans req w =
    (Panicked reason,
     mkWorld e'
       (trackers w ++ [mkTracker (Request_Context req) (now (env w)) None false []
                         (trans_clientDurationRecorder trans)])
       (log w ++ [CallRoundTrip (base trans) req])).
Proof.
  intros Hb. unfold RoundTrip, bind, get_env, alloc, call. cbn.
  rewrite Hb. reflexivity.
Qed.

Lemma RoundTrip_nil_nil_world
      (trans : instrumentedTransport) (req : Request) (w : World) (e' : Env) :
  Transport_RoundTrip (base trans) req (env w) = (Returned (None, None), e') ->
  RoundTrip trans req w =
    (Panicked nil_dereference,
     mkWorld e'
       (trackers w ++ [mkTracker (Request_Context req) (now (env w)) None false []
                         (trans_clientDurationRecorder trans)])
       (log w ++ [CallRoundTrip (base trans) req])).
Proof.
  intros Hb. unfold RoundTrip, bind, get_env, alloc, call. cbn.
  rewrite Hb. reflexivity.
Qed.

(** One outbound call with what follows on its body: the base call, then
    at most one sample, with the labels of the call; one tracker more. *)
Lemma outbound_call_inv
      (trans : instrumentedTransport) (req : Request) (ops : list Op) (w : World) :
  exists delta tr,
    log (snd (outbound_call trans req ops w)) =
      log w ++ CallRoundTrip (base trans) req :: delta /\
    trackers (snd (outbound_call trans req ops w)) = trackers w ++ [tr] /\
    (records delta = [] \/
     exists v,
       records delta =
         [CallRecord (trans_clientDurationRecorder trans) (Request_Context req) v
            (HTTPClientAttributesFromHTTPRequest req ++
               HTTPAttributesFromHTTPStatusCode
                 (label_status (fst (Transport_RoundTrip (base trans) req (env w)))))]).
Proof.
  unfold outbound_call.
  destruct (Transport_RoundTrip (base trans) req (env w))
    as [[[resp [err|]]|reason] e'] eqn:Hb; cbn [fst label_status].
  - rewrite (OtelhttpSpec.RoundTrip_error_run trans req w resp err e' Hb).
    destruct resp as [r|]; cbn [option_map].
    + unfold lift_Response. cbn [set_Body Body].
      destruct (Body r) as [bd|]; cbn [option_map].
      * match goal with |- context [run_ops _ _ ?w1] =>
          destruct (run_ops_Original_inv bd ops w1) as (d & Hl & Hr & Ht) end.
        rewrite Hl, Ht. cbn [log trackers].
        eexists (_ :: d), _. split; [rewrite <- app_assoc; reflexivity|].
        split; [reflexivity|]. right. eexists. unfold records in *. cbn. rewrite Hr. reflexivity.
      * cbn. eexists [_], _. split; [reflexivity|]. split; [reflexivity|].
        right. eexists. reflexivity.
    + cbn. eexists [_], _. split; [reflexivity|]. split; [reflexivity|].
      right. eexists. reflexivity.
  - destruct resp as [r|].
    + destruct (Body r) as [bd|] eqn:Hbd.
      * rewrite (OtelhttpSpec.RoundTrip_body_run trans req w r bd e' Hb Hbd).
        cbn [set_Body Body].
        set (t := length (trackers w)).
        set (tr0 := mkTracker _ _ _ _ _ _).
        destruct (run_ops_wrapped_inv t bd (wrappedBodyIO (Wrapper t) (Original bd)) ops
                    (OtelhttpSpec.wraps_wrappedBodyIO t bd) tr0
                    (mkWorld e' (trackers w ++ [tr0])
                       (log w ++ [CallRoundTrip (base trans) req]))
                    (OtelhttpSpec.lookup_fresh (trackers w) tr0) eq_refl)
          as (d & Hl & [[Hr Ht]|(_ & [e He] & Ht)]).
        -- rewrite Hl, Ht. cbn [log trackers]. exists d, tr0.
           split; [rewrite <- app_assoc; reflexivity|]. split; [reflexivity|].
           left. exact Hr.
        -- rewrite Hl, Ht. cbn [log trackers]. exists d, (set_done tr0).
           split; [rewrite <- app_assoc; reflexivity|].
           split; [apply OtelhttpSpec.insert_fresh|].
           right. eexists. rewrite He. reflexivity.
      * rewrite (OtelhttpSpec.RoundTrip_nil_body_run trans req w r e' Hb Hbd).
        unfold lift_Response. rewrite Hbd. cbn.
        eexists [_], _. split; [reflexivity|]. split; [reflexivity|].
        right. eexists. reflexivity.
    + rewrite (RoundTrip_nil_nil_world trans req w e' Hb). cbn.
      exists [], (mkTracker (Request_Context req) (now (env w)) None false []
                    (trans_clientDurationRecorder trans)).
      split; [reflexivity|]. split; [reflexivity|]. left. reflexivity.
  - rewrite (RoundTrip_panic_world trans req w reason e' Hb). cbn.
    exists [], (mkTracker (Request_Context req) (now (env w)) None false []
                  (trans_clientDurationRecorder trans)).
    split; [reflexivity|]. split; [reflexivity|]. left. reflexivity.
Qed.


(** X3. One outbound call, with whatever is then done on its body, allocates
    exactly one tracker and leaves the trackers of all earlier calls as they
    were, on every path: error, nil body, body, and panic. *)
Theorem one_tracker_per_call
        (trans : instrumentedTransport) (req : Request) (ops : list Op) (w : World) :
  exists tr,
    trackers (snd (outbound_call trans req ops w)) = trackers w ++ [tr] /\
    ctx tr = Request_Context req /\
    start tr = now (env w) /\
    clientDurationRecorder tr = trans_clientDurationRecorder trans.
Proof.
  unfold outbound_call.
  destruct (Transport_RoundTrip (base trans) req (env w))
    as [[[resp [err|]]|reason] e'] eqn:Hb.
  - rewrite (OtelhttpSpec.RoundTrip_error_run trans req w resp err e' Hb).
    destruct resp as [r|]; cbn [option_map].
    + unfold lift_Response. cbn [set_Body Body].
      destruct (Body r) as [bd|]; cbn [option_map].
      * match goal with |- context [run_ops _ _ ?w1] =>
          destruct (run_ops_Original_inv bd ops w1) as (d & _ & _ & Ht) end.
        rewrite Ht. eexists. split; [reflexivity|]. repeat split.
      * eexists. split; [reflexivity|]. repeat split.
    + eexists. split; [reflexivity|]. repeat split.
  - destruct resp as [r|].
    + destruct (Body r) as [bd|] eqn:Hbd.
      * rewrite (OtelhttpSpec.RoundTrip_body_run trans req w r bd e' Hb Hbd).
        cbn [set_Body Body].
        set (t := length (trackers w)).
        set (tr0 := mkTracker _ _ _ _ _ _).
        destruct (run_ops_wrapped_inv t bd (wrappedBodyIO (Wrapper t) (Original bd)) ops
                    (OtelhttpSpec.wraps_wrappedBodyIO t bd) tr0
                    (mkWorld e' (trackers w ++ [tr0])
                       (log w ++ [CallRoundTrip (base trans) req]))
                    (OtelhttpSpec.lookup_fresh (trackers w) tr0) eq_refl)
          as (d & _ & [[_ Ht]|(_ & _ & Ht)]); rewrite Ht; cbn [trackers].
        -- exists tr0. split; [reflexivity|]. repeat split.
        -- exists (set_done tr0). split; [apply OtelhttpSpec.insert_fresh|]. repeat split.
      * rewrite (OtelhttpSpec.RoundTrip_nil_body_run trans req w r e' Hb Hbd).
        unfold lift_Response. rewrite Hbd. cbn.
        eexists. split; [reflexivity|]. repeat split.
    + rewrite (RoundTrip_nil_nil_world trans req w e' Hb). cbn.
      eexists. split; [reflexivity|]. repeat split.
  - rewrite (RoundTrip_panic_world trans req w reason e' Hb). cbn.
    eexists. split; [reflexivity|]. repeat split.
Qed.

(** X8. Over any number of outbound calls made one after the other, each
    followed by any operations on its body, the recorder receives at most as
    many samples as there were calls, and there is one tracker per call. *)
Theorem samples_bounded_by_calls
        (trans : instrumentedTransport) (calls : list (Request * list Op)) (w : World) :
  (samples (log (run_calls trans calls w)) <= samples (log w) + length calls)%nat /\
  length (trackers (run_calls trans calls w)) = (length (trackers w) + length calls)%nat.
Proof.
  revert w. induction calls as [|[req ops] calls IH]; intros w.
  - cbn. split; lia.
  - cbn [run_calls length].
    destruct (IH (snd (outbound_call trans req ops w))) as [IHs IHt].
    destruct (outbound_call_inv trans req ops w) as (delta & tr & Hl & Ht & Hr).
    rewrite Hl in IHs. rewrite Ht in IHt.
    rewrite OtelhttpSpec.samples_app in IHs. cbn [samples is_Record] in IHs.
    rewrite (samples_records delta) in IHs.
    rewrite length_app in IHt. cbn in IHt.
    split; [|lia].
    destruct Hr as [Hr|[v Hr]]; rewrite Hr in IHs; cbn in IHs; lia.
Qed.

(** X2. Operations on the body of one call never reach the tracker of
    another call: every other tracker is as it was, and none is allocated. *)
Theorem other_trackers_untouched
        (t : nat) (bd : ExtBody) (d : bool) (v : ReadCloser) (ops : list Op) (w : World) :
  wraps t v ->
  tracked t bd d w ->
  length (trackers (snd (run_ops v ops w))) = length (trackers w) /\
  forall t' : nat, t' <> t ->
    trackers (snd (run_ops v ops w)) !! t' = trackers w !! t'.
Proof.
  intros Hv (tr & Ht & Hbd & _).
  destruct (run_ops_wrapped_inv t bd v ops Hv tr w Ht Hbd)
    as (delta & _ & [[_ Htr]|(_ & _ & Htr)]); rewrite Htr.
  - split; [reflexivity|]. intros; reflexivity.
  - split; [apply length_insert|].
    intros t' Hne. apply list_lookup_insert_ne. congruence.
Qed.

Lemma body_calls_sample (tr : tracker) (e : Env) : body_calls [sample_of tr e] = [].
Proof. reflexivity. Qed.

Lemma run_op_transparent (t : nat) (tr : tracker) (bd : ExtBody) (op : Op) (w w' : World) :
  trackers w !! t = Some tr ->
  body tr = Some bd ->
  env w = env w' ->
  body_calls (log w) = body_calls (log w') ->
  let v := wrappedBodyIO (Wrapper t) (Original bd) in
  fst (run_op v op w) = fst (run_op (Original bd) op w') /\
  env (snd (run_op v op w)) = env (snd (run_op (Original bd) op w')) /\
  body_calls (log (snd (run_op v op w))) =
    body_calls (log (snd (run_op (Original bd) op w'))) /\
  exists tr1, trackers (snd (run_op v op w)) !! t = Some tr1 /\ body tr1 = Some bd.
Proof.
  intros Ht Hbd He Hl v.
  destruct op as [b| |p|f]; cbn [run_op].
  - rewrite (OtelhttpSpec.Read_wraps t v b (OtelhttpSpec.wraps_wrappedBodyIO t bd)).
    rewrite (OtelhttpSpec.tracker_Read_run t tr bd b w Ht Hbd).
    cbn [Read]. unfold call. rewrite <- He.
    destruct (ExtBody_Read bd b (env w)) as [o e1]. cbn [fst snd env log trackers].
    split; [reflexivity|]. split; [reflexivity|]. split.
    + rewrite !body_calls_app, Hl.
      destruct (finalizes (ResRead o) && negb (endOnce tr));
        [rewrite body_calls_sample, app_nil_r|rewrite app_nil_r]; reflexivity.
    + destruct (finalizes (ResRead o) && negb (endOnce tr)).
      * exists (set_done tr). split; [apply OtelhttpSpec.lookup_set_done, Ht|exact Hbd].
      * exists tr. split; [exact Ht|exact Hbd].
  - rewrite (OtelhttpSpec.Close_wraps t v (OtelhttpSpec.wraps_wrappedBodyIO t bd)).
    rewrite (OtelhttpSpec.tracker_Close_run t tr bd w Ht Hbd).
    cbn [Close]. unfold call. rewrite <- He.
    destruct (ExtBody_Close bd (env w)) as [o e1]. cbn [fst snd env log trackers].
    split; [reflexivity|]. split; [reflexivity|]. split.
    + rewrite !body_calls_app, Hl.
      destruct (endOnce tr); [|rewrite body_calls_sample]; reflexivity.
    + destruct (endOnce tr).
      * exists tr. split; [exact Ht|exact Hbd].
      * exists (set_done tr). split; [apply OtelhttpSpec.lookup_set_done, Ht|exact Hbd].
  - subst v. unfold wrappedBodyIO, Write. cbn.
    destruct (ExtBody_isWriter bd); cbn.
    + unfold call. rewrite <- He.
      destruct (ExtBody_Write bd p (env w)) as [o e1]. cbn.
      split; [reflexivity|]. split; [reflexivity|]. split.
      * unfold body_calls in *. rewrite !List.filter_app, Hl. reflexivity.
      * exists tr. split; [exact Ht|exact Hbd].
    + split; [reflexivity|]. split; [exact He|]. split; [exact Hl|].
      exists tr. split; [exact Ht|exact Hbd].
  - cbn. split; [reflexivity|]. split; [rewrite He; reflexivity|]. split; [exact Hl|].
    exists tr. split; [exact Ht|exact Hbd].
Qed.

Lemma run_ops_transparent (t : nat) (bd : ExtBody) (ops : list Op) :
  forall (tr : tracker) (w w' : World),
    trackers w !! t = Some tr ->
    body tr = Some bd ->
    env w = env w' ->
    body_calls (log w) = body_calls (log w') ->
    let v := wrappedBodyIO (Wrapper t) (Original bd) in
    fst (run_ops v ops w) = fst (run_ops (Original bd) ops w') /\
    env (snd (run_ops v ops w)) = env (snd (run_ops (Original bd) ops w')) /\
    body_calls (log (snd (run_ops v ops w))) =
      body_calls (log (snd (run_ops (Original bd) ops w'))).
Proof.
  induction ops as [|op ops IH]; intros tr w w' Ht Hbd He Hl v.
  - cbn. split; [reflexivity|]. split; [exact He|exact Hl].
  - rewrite !run_ops_cons. cbn [fst snd].
    destruct (run_op_transparent t tr bd op w w' Ht Hbd He Hl)
      as (Hr1 & He1 & Hl1 & tr1 & Ht1 & Hbd1).
    destruct (IH tr1 _ _ Ht1 Hbd1 He1 Hl1) as (Hr2 & He2 & Hl2).
    fold v in Hr1, Hr2, He2, Hl2.
    rewrite Hr1, Hr2. split; [reflexivity|]. split; [exact He2|exact Hl2].
Qed.

(** X1. The wrapped body behaves towards its caller and towards the original
    body as the original body does: over any sequence of reads, closes and
    writes, the results handed back, the calls that reach the original body
    and the state this leaves the outside world in are those of the same
    sequence run on the original body itself.  The samples are all the
    wrapper adds. *)
Theorem wrapper_is_transparent
        (t : nat) (bd : ExtBody) (d : bool) (ops : list Op) (w : World) :
  tracked t bd d w ->
  let v := wrappedBodyIO (Wrapper t) (Original bd) in
  fst (run_ops v ops w) = fst (run_ops (Original bd) ops w) /\
  env (snd (run_ops v ops w)) = env (snd (run_ops (Original bd) ops w)) /\
  body_calls (log (snd (run_ops v ops w))) =
    body_calls (log (snd (run_ops (Original bd) ops w))).
Proof.
  intros (tr & Ht & Hbd & _).
  exact (run_ops_transparent t bd ops tr w w Ht Hbd eq_refl eq_refl).
Qed.


(** X6. When a read reaches the end of the stream and the body is closed
    afterwards, the one sample is the one taken at the read: it is measured
    on the clock as the read left it and sits in the log between that read
    and the close; the close adds none and still closes the body. *)
Theorem sample_taken_at_end_of_stream
        (t : nat) (tr : tracker) (bd : ExtBody) (b b' : list Byte.byte) (n : Z) (w : World) :
  trackers w !! t = Some tr ->
  body tr = Some bd ->
  endOnce tr = false ->
  fst (ExtBody_Read bd b (env w)) = Returned (b', (n, Some EOF)) ->
  let e1 := snd (ExtBody_Read bd b (env w)) in
  let w1 := snd (tracker_Read t b w) in
  log (snd (tracker_Close t w1)) =
    log w ++ [CallRead bd b; sample_of tr e1; CallClose bd] /\
  fst (tracker_Close t w1) = fst (ExtBody_Close bd e1) /\
  samples (log (snd (tracker_Close t w1))) = S (samples (log w)).
Proof.
  intros Ht Hbd Hd Hres e1 w1. subst e1 w1.
  rewrite (OtelhttpSpec.tracker_Read_run t tr bd b w Ht Hbd).
  rewrite Hres, Hd. cbn [fst snd finalizes is_EOF negb].
  rewrite bool_decide_eq_true_2 by reflexivity. cbn [andb].
  match goal with |- context [tracker_Close t ?w1] =>
    rewrite (OtelhttpSpec.tracker_Close_run t (set_done tr) bd w1
               (OtelhttpSpec.lookup_set_done t tr (trackers w) Ht) Hbd) end.
  cbn [fst snd log env endOnce set_done app].
  split; [rewrite <- !app_assoc; reflexivity|]. split; [reflexivity|].
  rewrite !OtelhttpSpec.samples_app. cbn. lia.
Qed.

(** X7. When the base transport succeeds with a response that has a body,
    [RoundTrip] records nothing before it returns: it hands back the same
    status code and remaining fields with the body replaced by the wrapper of
    a fresh tracker, whose guard is clear and which observes the original
    body. *)
Theorem RoundTrip_defers_to_body
        (trans : instrumentedTransport) (req : Request) (w : World)
        (r : Response ResponseData ExtBody) (bd : ExtBody) (e' : Env) :
  Transport_RoundTrip (base trans) req (env w) = (Returned (Some r, None), e') ->
  Body r = Some bd ->
  exists r',
    fst (RoundTrip trans req w) = Returned (Some r', None) /\
    StatusCode r' = StatusCode r /\
    resp_rest r' = resp_rest r /\
    Body r' = Some (wrappedBodyIO (Wrapper (length (trackers w))) (Original bd)) /\
    log (snd (RoundTrip trans req w)) = log w ++ [CallRoundTrip (base trans) req] /\
    env (snd (RoundTrip trans req w)) = e' /\
    tracked (length (trackers w)) bd false (snd (RoundTrip trans req w)).
Proof.
  intros Hb Hbd.
  rewrite (OtelhttpSpec.RoundTrip_body_run trans req w r bd e' Hb Hbd). cbn [fst snd].
  eexists. split; [reflexivity|]. cbn.
  do 5 (split; [reflexivity|]).
  eexists. split; [apply OtelhttpSpec.lookup_fresh|]. split; reflexivity.
Qed.

End Proofs.

Section SetupProofs.

Import OtelhttpSetup.

Context `{SetupCollaborators}.

(** X9. [applyConfig] configures the base transport first, then takes the
    meter of the configuration and asks that meter, not the one held before,
    for the duration recorder, in milliseconds.  The recorder that comes back
    is installed whether or not an error comes with it, and the error goes to
    [handleErr], whose outcome is the outcome of [applyConfig].  From then on
    every sample of an outbound call goes to that recorder. *)
Theorem applyConfig_installs_recorder
        (c : config) (sw : SetupWorld) (e1 e2 : Env)
        (rec : Float64ValueRecorder) (err : option error) :
  Transport_applyConfig (base (s_trans sw)) c (s_env sw) = (Returned tt, e1) ->
  Meter_NewFloat64ValueRecorder (config_Meter c) clientRequestDuration
    [WithDescription "measures the duration of the outbound HTTP request";
     WithUnit "ms"] e1 = (Returned (rec, err), e2) ->
  let sw' := snd (applyConfig c sw) in
  fst (applyConfig c sw) = fst (handleErr err e2) /\
  s_env sw' = snd (handleErr err e2) /\
  s_trans sw' = mkTransport (config_Meter c) (base (s_trans sw)) rec /\
  s_log sw' =
    s_log sw ++
      [CallApplyConfig (base (s_trans sw)) c;
       CallNewFloat64ValueRecorder (config_Meter c) clientRequestDuration measure_options;
       CallHandleErr err] /\
  forall (req : Request) (ops : list Op) (w : World),
    exists delta,
      log (snd (outbound_call (s_trans sw') req ops w)) =
        log w ++ CallRoundTrip (base (s_trans sw)) req :: delta /\
      (records delta = [] \/
       exists v ls, records delta = [CallRecord rec (Request_Context req) v ls]).
Proof.
  intros Hac Hnew sw'.
  assert (Hrun : applyConfig c sw =
            (fst (handleErr err e2),
             mkSetupWorld (snd (handleErr err e2))
               (mkTransport (config_Meter c) (base (s_trans sw)) rec)
               (s_log sw ++
                  [CallApplyConfig (base (s_trans sw)) c;
                   CallNewFloat64ValueRecorder (config_Meter c) clientRequestDuration
                     measure_options;
                   CallHandleErr err]))).
  { unfold applyConfig, createMeasures, bind, get_trans, put_trans, s_call. cbn.
    rewrite Hac. cbn. unfold measure_options, Milliseconds in *. rewrite Hnew. cbn.
    destruct (handleErr err e2) as [o e3]. cbn.
    rewrite <- !app_assoc. reflexivity. }
  subst sw'. rewrite Hrun. cbn [fst snd s_env s_trans s_log].
  do 4 (split; [reflexivity|]).
  intros req ops w.
  destruct (outbound_call_inv (mkTransport (config_Meter c) (base (s_trans sw)) rec)
              req ops w) as (delta & tr & Hl & _ & Hr).
  exists delta. split; [exact Hl|].
  destruct Hr as [Hr|[v Hr]]; [left; exact Hr|right; eexists _, _; exact Hr].
Qed.

End SetupProofs.

(** *** On the concrete transports *)

Import OtelhttpDemo.

(** Two calls; the body of the first is read to the end and closed, and
    the tracker of the second still has its guard clear. *)
Lemma other_trackers_untouched_witness :
  let w := snd (RoundTrip demo_transport GetPipe after_GetItems) in
  let w' := snd (run_ops (Wrapper O)
                   [OpRead buf4; OpRead buf4; OpRead buf4; OpRead buf4; OpClose] w) in
  length (trackers w') = 2%nat /\
  trackers w' !! 1%nat = trackers w !! 1%nat /\
  option_map endOnce (trackers w' !! O) = Some true.
Proof.
  cbv zeta.
  destruct (@other_trackers_untouched demo O Chunked false (Wrapper O)
              [OpRead buf4; OpRead buf4; OpRead buf4; OpRead buf4; OpClose]
              (snd (RoundTrip demo_transport GetPipe after_GetItems))
              (or_introl eq_refl)
              (ex_intro _ _ (conj eq_refl (conj eq_refl eq_refl)))) as [Hlen Hother].
  split; [rewrite Hlen; reflexivity|].
  split; [apply Hother; discriminate|].
  vm_compute. reflexivity.
Defined.

Lemma wrapper_is_transparent_witness :
  let ops := [OpRead buf4; OpWrite buf4; OpRead buf4; OpRead buf4; OpRead buf4; OpClose] in
  fst (run_ops (wrappedBodyIO (Wrapper O) (@Original demo Pipe)) ops after_GetPipe) =
    fst (run_ops (@Original demo Pipe) ops after_GetPipe) /\
  written (env (snd (run_ops (wrappedBodyIO (Wrapper O) (@Original demo Pipe)) ops
                       after_GetPipe))) = buf4.
Proof.
  cbv zeta.
  destruct (@wrapper_is_transparent demo O Pipe false
              [OpRead buf4; OpWrite buf4; OpRead buf4; OpRead buf4; OpRead buf4; OpClose]
              after_GetPipe
              (ex_intro _ _ (conj eq_refl (conj eq_refl eq_refl)))) as (Hres & Henv & _).
  split; [exact Hres|]. rewrite Henv. vm_compute. reflexivity.
Defined.


Lemma sample_taken_at_end_of_stream_witness :
  let w := snd (run_ops (Wrapper O) [OpRead buf4; OpRead buf4; OpRead buf4] after_GetItems) in
  records (log (snd (tracker_Close O (snd (tracker_Read O buf4 w))))) =
    [CallRecord tt tt (latencyMs 10000000)
       [inl ("http.method", "GET"); inr ("http.status_code", 200)]%string] /\
  clock (env (snd (tracker_Read O buf4 w))) = 10000000.
Proof.
  cbv zeta.
  destruct (@sample_taken_at_end_of_stream demo O
              (@mkTracker demo tt 0 (Some Chunked) false
                 [inl ("http.method", "GET"); inr ("http.status_code", 200)]%string tt)
              Chunked buf4 buf4 0
              (snd (run_ops (Wrapper O) [OpRead buf4; OpRead buf4; OpRead buf4] after_GetItems))
              eq_refl eq_refl eq_refl eq_refl) as (Hlog & _ & _).
  split; [rewrite Hlog; vm_compute; reflexivity|vm_compute; reflexivity].
Defined.

Lemma RoundTrip_defers_to_body_witness :
  exists r',
    fst (RoundTrip demo_transport GetItems demo_world) = Returned (Some r', None) /\
    StatusCode r' = 200 /\
    Body r' = Some (Wrapper O) /\
    log (snd (RoundTrip demo_transport GetItems demo_world)) = [CallRoundTrip tt GetItems].
Proof.
  destruct (@RoundTrip_defers_to_body demo demo_transport GetItems demo_world
              (mkResponse 200 (Some Chunked) tt) Chunked (tick (env demo_world))
              eq_refl eq_refl) as (r' & Hres & Hcode & _ & Hbody & Hlog & _).
  exists r'. split; [exact Hres|]. split; [exact Hcode|]. split; [exact Hbody|exact Hlog].
Defined.

Import OtelhttpSetup OtelhttpSetupDemo.

(** A transport that held meter 1 and recorder 1 is configured with meter
    5: it ends up with recorder 105, and with recorder 100 for meter 0, which
    reports an error. *)
Lemma applyConfig_installs_recorder_witness :
  s_trans (snd (applyConfig 5%nat unconfigured)) = @mkTransport metered 5%nat tt 105%nat /\
  s_trans (snd (applyConfig O unconfigured)) = @mkTransport metered O tt 100%nat.
Proof.
  destruct (@applyConfig_installs_recorder metered metered_setup 5%nat unconfigured
              _ _ 105%nat None eq_refl eq_refl) as (_ & _ & H5 & _).
  destruct (@applyConfig_installs_recorder metered metered_setup O unconfigured
              _ _ 100%nat (Some ErrDial) eq_refl eq_refl) as (_ & _ & H0 & _).
  split; [exact H5|exact H0].
Defined.

End OtelhttpExtra.

(** ** Further properties of the span filter *)

Module RestfulExtra.
Import Restful RestfulRuns.

Section Proofs.

Context `{Collaborators}.

(** X10. When the rest of the chain panics, the filter panics with the same
    value; the span is ended, and it has received neither attributes nor a
    status: the response's status code is not read. *)
Theorem chain_panic_ends_span_without_status
        (service : string) (opts : list Option) (w0 w1 : World) (f : FilterFunction)
        (req : Request) (resp : Response) (chain : FilterChain) (w : World)
        (reason : string) (e2 : Env) :
  OTelFilter service opts w0 = (Returned f, w1) ->
  let tracer := resolved_Tracer opts (env w0) in
  let props := resolved_Propagators opts (env w0) in
  ProcessFilter chain req resp (chain_env tracer props service req (env w))
    = (Panicked reason, e2) ->
  let route := SelectedRoutePath req (env w) in
  f req resp chain w =
    (Panicked reason,
     mkWorld e2
       (log w ++
          [CallStart tracer (extracted props req (env w)) route
             (start_options service route (Request_Request req (env w)));
           CallProcessFilter chain req resp;
           CallEnd (started_span tracer props service req (env w))])).
Proof.
  intros Hf tracer props Hpf route.
  rewrite (RestfulSpec.OTelFilter_closure service opts w0 w1 f Hf).
  rewrite RestfulSpec.filter_run. fold tracer props. rewrite Hpf. reflexivity.
Qed.

(** X11. The rest of the chain finds in the request the context that
    [Tracer.Start] returned (given that [WithContext] sets the context and
    that the request field reads back what was stored); the filter's outcome
    is the chain's, and the filter changes nothing in the outside world after
    the chain: the response is as the chain left it. *)
Theorem chain_sees_span_context
        (service : string) (opts : list Option) (w0 w1 : World) (f : FilterFunction)
        (req : Request) (resp : Response) (chain : FilterChain) (w : World) :
  OTelFilter service opts w0 = (Returned f, w1) ->
  (forall r c, http_Context (http_WithContext r c) = c) ->
  (forall rq r e,
     http_Context (Request_Request rq (Request_set_Request rq r e)) = http_Context r) ->
  let tracer := resolved_Tracer opts (env w0) in
  let props := resolved_Propagators opts (env w0) in
  let route := SelectedRoutePath req (env w) in
  let e_chain := chain_env tracer props service req (env w) in
  http_Context (Request_Request req e_chain) =
    fst (fst (Tracer_Start tracer (extracted props req (env w)) route
                (start_options service route (Request_Request req (env w))) (env w))) /\
  fst (f req resp chain w) = fst (ProcessFilter chain req resp e_chain) /\
  env (snd (f req resp chain w)) = snd (ProcessFilter chain req resp e_chain).
Proof.
  intros Hf Hwith Hget tracer props route e_chain.
  rewrite (RestfulSpec.OTelFilter_closure service opts w0 w1 f Hf).
  rewrite RestfulSpec.filter_run. cbn [fst snd env].
  split; [|split; reflexivity].
  subst e_chain. unfold chain_env. cbv zeta. rewrite Hget, Hwith. reflexivity.
Qed.

Lemma filter_counts (service : string) (tracer : trace_Tracer)
      (props : propagation_Propagators)
      (req : Request) (resp : Response) (chain : FilterChain) (w : World) :
  let w' := snd (filter (mkConfig (Some tracer) (Some props)) service req resp chain w) in
  count is_Start (log w') = S (count is_Start (log w)) /\
  count is_End (log w') = S (count is_End (log w)) /\
  count is_global_read (log w') = count is_global_read (log w).
Proof.
  cbv zeta. rewrite RestfulSpec.filter_run. cbn [snd log].
  rewrite !RestfulSpec.count_app.
  destruct (fst (ProcessFilter _ _ _ _)); cbn; repeat split; lia.
Qed.

(** X12. Over any sequence of requests handed to one filter, whichever of
    their handlers return or panic, as many spans are started as there are
    requests and as many are ended, and the registry is never read. *)
Theorem spans_balanced_over_requests
        (service : string) (opts : list Option) (w0 w1 : World) (f : FilterFunction)
        (rs : list (Request * Response * FilterChain)) (w : World) :
  OTelFilter service opts w0 = (Returned f, w1) ->
  count is_Start (log (run_requests f rs w)) = (count is_Start (log w) + length rs)%nat /\
  count is_End (log (run_requests f rs w)) = (count is_End (log w) + length rs)%nat /\
  count is_global_read (log (run_requests f rs w)) = count is_global_read (log w).
Proof.
  intros Hf. rewrite (RestfulSpec.OTelFilter_closure service opts w0 w1 f Hf).
  revert w. induction rs as [|[[req resp] chain] rs IH]; intros w.
  - cbn. repeat split; lia.
  - cbn [run_requests length].
    destruct (filter_counts service (resolved_Tracer opts (env w0))
                (resolved_Propagators opts (env w0)) req resp chain w) as (Hs & He & Hg).
    cbv zeta in Hs, He, Hg.
    match goal with |- context [run_requests _ rs ?w1] =>
      destruct (IH w1) as (IHs & IHe & IHg) end.
    rewrite IHs, IHe, IHg, Hs, He, Hg. repeat split; lia.
Qed.

End Proofs.

(** *** On the concrete router *)

Import RestfulDemo.

Lemma chain_panic_ends_span_without_status_witness :
  log (snd (demo_filter tt tt HandlerPanics after_construction)) =
    [ ReadGlobalTraceProvider; ReadGlobalPropagators;
      CallStart 1%nat 2%nat "/items/{id}"
        (start_options "items" "/items/{id}" (O, [("traceparent", "00-ab-cd-01")]));
      CallProcessFilter HandlerPanics tt tt;
      CallEnd O ]%string.
Proof.
  rewrite (@chain_panic_ends_span_without_status demo "items" [] demo_world
             after_construction demo_filter tt tt HandlerPanics after_construction
             "handler panicked" (mkEnv 500 3 1 1 2) eq_refl eq_refl).
  reflexivity.
Defined.

Lemma chain_sees_span_context_witness :
  request_ctx (chain_env 1%nat 2%nat "items" tt (env after_construction)) = 3%nat /\
  status (env (snd (demo_filter tt tt HandlerRewrites after_construction))) = 404.
Proof.
  destruct (@chain_sees_span_context demo "items" [] demo_world after_construction
              demo_filter tt tt HandlerRewrites after_construction eq_refl
              (fun r c => eq_refl) (fun rq r e => eq_refl)) as (Hctx & _ & Henv).
  split; [exact Hctx|]. rewrite Henv. reflexivity.
Defined.

(** Four requests, one of whose handlers panics: four spans started, four
    ended. *)
Lemma spans_balanced_over_requests_witness :
  let rs := [(tt, tt, Handler200); (tt, tt, HandlerPanics);
             (tt, tt, HandlerRewrites); (tt, tt, HandlerSwapsRegistry)] in
  count is_Start (log (run_requests demo_filter rs after_construction)) = 4%nat /\
  count is_End (log (run_requests demo_filter rs after_construction)) = 4%nat /\
  count is_global_read (log (run_requests demo_filter rs after_construction)) = 2%nat.
Proof.
  exact (@spans_balanced_over_requests demo "items" [] demo_world after_construction
           demo_filter
           [(tt, tt, Handler200); (tt, tt, HandlerPanics);
            (tt, tt, HandlerRewrites); (tt, tt, HandlerSwapsRegistry)]
           after_construction eq_refl).
Defined.

End RestfulExtra.
